(** * PharmaChatbot: a shallow embedding of [pharma_chatbot_gsheets.py]

    The program loads three worksheets of a Google Sheet, turns every row
    into a LangChain [Document], builds a FAISS index over the documents and
    answers chat questions through a RetrievalQA chain, one Streamlit script
    run per user interaction.

    The third-party collaborators (gspread, the embedding model, the Groq
    API, Python's set iteration order) are the fields of a [World] record;
    the type of embedding vectors and FAISS' comparison of distances are
    section variables.  Everything the source file itself does is a
    definition below. *)

From Stdlib Require Import QArith.
From stdpp Require Import gmap strings list fin_maps sorting pretty.

Open Scope string_scope.

(** ** Python values, exceptions, results *)

(** A cell of a worksheet as [get_all_records] hands it over (a [str] or a
    number), and the [NaN] pandas puts where a record lacks a column. *)
Inductive value :=
| VStr (s : string)
| VInt (n : Z)
| VNaN.

Global Instance value_eq_dec : EqDecision value.
Proof. solve_decision. Defined.

Definition value_enc (v : value) : string + (Z + unit) :=
  match v with
  | VStr s => inl s
  | VInt n => inr (inl n)
  | VNaN => inr (inr tt)
  end.

Definition value_dec (x : string + (Z + unit)) : value :=
  match x with
  | inl s => VStr s
  | inr (inl n) => VInt n
  | inr (inr _) => VNaN
  end.

Global Instance value_countable : Countable value.
Proof. apply (inj_countable' value_enc value_dec). by intros []. Defined.

(** [str(v)], as an f-string renders a value. *)
Definition str (v : value) : string :=
  match v with
  | VStr s => s
  | VInt n => pretty n
  | VNaN => "nan"
  end.

(** [type(v).__name__] *)
Definition type_name (v : value) : string :=
  match v with
  | VStr _ => "str"
  | VInt _ => "int"
  | VNaN => "float"
  end.

(** The exceptions the script can meet.  [ExternalError] is whatever a
    collaborator raises, carried with its [str(e)] and its [repr(e)]. *)
Inductive exn :=
| KeyError (key : string)
| IndexError (msg : string)
| TypeError (msg : string)
| ExternalError (shown detailed : string).

Definition quote (s : string) : string := "'" ++ s ++ "'".

(** [str(e)]; the keys of a [KeyError] here are column names without quotes *)
Definition str_exn (e : exn) : string :=
  match e with
  | KeyError k => quote k
  | IndexError m => m
  | TypeError m => m
  | ExternalError s _ => s
  end.

(** [repr(e)] *)
Definition repr_exn (e : exn) : string :=
  match e with
  | KeyError k => "KeyError(" ++ quote k ++ ")"
  | IndexError m => "IndexError(" ++ quote m ++ ")"
  | TypeError m => "TypeError(" ++ quote m ++ ")"
  | ExternalError _ r => r
  end.

Inductive result (A : Type) :=
| Ok (a : A)
| Raise (e : exn).
Arguments Ok {A} a.
Arguments Raise {A} e.

Global Instance result_bind : MBind result := λ A B k m,
  match m with
  | Ok a => k a
  | Raise e => Raise e
  end.

(** A list comprehension whose body may raise: the first failing element
    aborts the whole comprehension. *)
Fixpoint comprehension {A B} (f : A -> result B) (l : list A) : result (list B) :=
  match l with
  | [] => Ok []
  | a :: l' => b ← f a; bs ← comprehension f l'; Ok (b :: bs)
  end.

Definition NL : string := String (Ascii.ascii_of_nat 10) EmptyString.

(** [sep.join(items)] on strings *)
Fixpoint join (sep : string) (items : list string) : string :=
  match items with
  | [] => EmptyString
  | [s] => s
  | s :: rest => s ++ sep ++ join sep rest
  end.

(** ** Documents and the data source adapter *)

(** A record of [get_all_records]: column name to cell. *)
Abbreviation record := (gmap string value).

Record Document := {
  page_content : string;
  metadata : gmap string value
}.

(** [pd.DataFrame(records)]: the columns are the keys of all the records.
    The records of one worksheet all have the keys of its header row; for
    them no [NaN] arises and a cell reaches the row as it was read. *)
Definition columns (records : list record) : gset string :=
  ⋃ (dom <$> records).

(** [row[c]] for a row of [iterrows()]: a label that is no column raises
    [KeyError]; a column the record lacks reads as [NaN]. *)
Definition getitem (cols : gset string) (row : record) (c : string) : result value :=
  if decide (c ∈ cols) then Ok (default VNaN (row !! c)) else Raise (KeyError c).

Section Rows.
Variable cols : gset string.
Let get := getitem cols.

Definition medicine_doc (row : record) : result Document :=
  name ← get row "Name";
  generic ← get row "Generic Name";
  uses ← get row "Uses";
  side ← get row "Side Effects";
  brands ← get row "Common Brands (India)";
  prescription ← get row "Prescription";
  brands' ← get row "Common Brands (India)";
  Ok {| page_content :=
          "Medicine: " ++ str name ++ NL ++ "Generic: " ++ str generic ++ NL
          ++ "Uses: " ++ str uses ++ NL ++ "Side Effects: " ++ str side ++ NL
          ++ "Brands: " ++ str brands;
        metadata :=
          {[ "type" := VStr "medicine";
             "prescription" := prescription;
             "brands" := brands' ]} |}.

Definition disease_doc (row : record) : result Document :=
  name ← get row "Name";
  symptoms ← get row "Symptoms";
  medicines ← get row "Recommended Medicines";
  precautions ← get row "Precautions";
  symptoms' ← get row "Symptoms";
  medicines' ← get row "Recommended Medicines";
  Ok {| page_content :=
          "Disease: " ++ str name ++ NL ++ "Symptoms: " ++ str symptoms ++ NL
          ++ "Medicines: " ++ str medicines ++ NL
          ++ "Precautions: " ++ str precautions;
        metadata :=
          {[ "type" := VStr "disease";
             "symptoms" := symptoms';
             "medicines" := medicines' ]} |}.

Definition symptom_doc (row : record) : result Document :=
  name ← get row "Name";
  diseases ← get row "Associated Diseases";
  severity ← get row "Severity";
  diseases' ← get row "Associated Diseases";
  severity' ← get row "Severity";
  Ok {| page_content :=
          "Symptom: " ++ str name ++ NL
          ++ "Associated Diseases: " ++ str diseases ++ NL
          ++ "Severity: " ++ str severity;
        metadata :=
          {[ "type" := VStr "symptom";
             "diseases" := diseases';
             "severity" := severity' ]} |}.
End Rows.

(** [[Document(...) for _, row in pd.DataFrame(records).iterrows()]] *)
Definition table_docs (mk : gset string -> record -> result Document)
    (records : list record) : result (list Document) :=
  comprehension (mk (columns records)) records.

(** An opened spreadsheet: [sheet.worksheet(name).get_all_records()]. *)
Abbreviation Spreadsheet := (string -> result (list record)).

(** An authorised gspread client: [client.open_by_key(key)]. *)
Abbreviation Client := (option string -> result Spreadsheet).

Definition SCOPES : list string := ["https://www.googleapis.com/auth/spreadsheets"].

(** ** The collaborators and the pipeline *)

Section Pipeline.

(** An embedding vector, and FAISS' comparison of L2 distances:
    [closer q u v] holds when [u] is at most as far from the query [q] as
    [v].  Floating point stays outside the model. *)
Context {vector : Type}.
Variable closer : vector -> vector -> vector -> bool.

(** The parameters of [ChatGroq(...)]. *)
Record ChatGroq := {
  model : string;
  temperature : Q;
  api_key : option string
}.

(** What one run of the script finds outside itself. *)
Record World := {
  (** [os.environ] after [load_dotenv()] *)
  environ : gmap string string;
  (** [Credentials.from_service_account_file(file, scopes)] and
      [gspread.authorize] *)
  authorize : string -> list string -> result Client;
  (** [HuggingFaceEmbeddings(model_name)]: loading the model gives the
      embedding function *)
  HuggingFaceEmbeddings : string -> result (string -> result vector);
  (** the checks of the [ChatGroq] constructor *)
  groq_client : ChatGroq -> option exn;
  (** one completion request to the Groq API *)
  groq_complete : ChatGroq -> string -> result string;
  (** the iteration order of a Python [set]: smaller rank first *)
  set_rank : value -> Z
}.

Definition getenv (w : World) (name : string) : option string := environ w !! name.

Definition SPREADSHEET_ID (w : World) : option string := getenv w "SPREADSHEET_ID".

Definition connect_to_gsheets (w : World) : result Spreadsheet :=
  client ← authorize w "credentials.json" SCOPES;
  client (SPREADSHEET_ID w).

Definition load_pharma_data (w : World) : result (list Document) :=
  sheet ← connect_to_gsheets w;
  medicines ← sheet "Medicines";
  medicine_docs ← table_docs medicine_doc medicines;
  diseases ← sheet "Diseases";
  disease_docs ← table_docs disease_doc diseases;
  symptoms ← sheet "Symptoms";
  symptom_docs ← table_docs symptom_doc symptoms;
  Ok (medicine_docs ++ disease_docs ++ symptom_docs)%list.

(** The FAISS store: the embedding function it was built with and the
    embedded documents, in insertion order. *)
Record VectorStore := {
  embedding_function : string -> result vector;
  docstore : list (vector * Document)
}.

(** [FAISS.from_documents(docs, embeddings)]: every text is embedded, then
    the index is created with the dimension of the first vector (an
    [IndexError] when there is none). *)
Definition from_documents (docs : list Document)
    (embeddings : string -> result vector) : result VectorStore :=
  vectors ← comprehension embeddings (page_content <$> docs);
  match vectors with
  | [] => Raise (IndexError "list index out of range")
  | _ => Ok {| embedding_function := embeddings; docstore := zip vectors docs |}
  end.

Definition get_vectorstore (w : World) (docs : list Document) : result VectorStore :=
  embeddings ← HuggingFaceEmbeddings w "sentence-transformers/all-mpnet-base-v2";
  from_documents docs embeddings.

(** [vectorstore.similarity_search(query, k)]: the [k] entries nearest to
    the embedded query. *)
Definition similarity_search (vs : VectorStore) (query : string) (k : nat)
    : result (list Document) :=
  q ← embedding_function vs query;
  Ok (snd <$> take k (merge_sort (λ a b, closer q a.1 b.1) (docstore vs))).

(** [PROMPT_TEMPLATE.format(context=..., question=...)] *)
Definition PROMPT_TEMPLATE (context question : string) : string :=
  "You are an Indian pharmaceutical assistant. Provide:" ++ NL
  ++ "    1. Medicine info including Indian brands" ++ NL
  ++ "    2. Disease info with symptoms and treatments" ++ NL
  ++ "    3. Always recommend doctor consultation for prescriptions" ++ NL
  ++ "    4. Never suggest prescription medicines without doctor advice" ++ NL
  ++ "    " ++ NL
  ++ "    Context: " ++ context ++ NL
  ++ "    Question: " ++ question ++ NL
  ++ "    Answer:".

(** The chain of [RetrievalQA.from_chain_type]. *)
Record RetrievalQA := {
  llm : ChatGroq;
  chain_type : string;
  retriever : VectorStore;
  search_k : nat;
  prompt : string -> string -> string;
  return_source_documents : bool
}.

Definition create_qa_chain (w : World) (vectorstore : VectorStore) : result RetrievalQA :=
  let llm :=
    {| model := "mistral-saba-24b";
       temperature := 0.2;
       api_key := getenv w "GROQ_API_KEY" |} in
  match groq_client w llm with
  | Some e => Raise e
  | None =>
      Ok {| llm := llm;
            chain_type := "stuff";
            retriever := vectorstore;
            search_k := 4;
            prompt := PROMPT_TEMPLATE;
            return_source_documents := true |}
  end.

(** The dict a chain call returns; [source_documents] is present when the
    chain was asked for them. *)
Record ChainResult := {
  result_text : string;
  source_documents : option (list Document)
}.

(** [qa_chain({"query": query})] for the "stuff" chain: retrieve, paste the
    contents into the prompt, ask the model. *)
Definition invoke (w : World) (chain : RetrievalQA) (query : string) : result ChainResult :=
  docs ← similarity_search (retriever chain) query (search_k chain);
  let context := join (NL ++ NL) (page_content <$> docs) in
  answer ← groq_complete w (llm chain) (prompt chain context query);
  Ok {| result_text := answer;
        source_documents := if return_source_documents chain then Some docs else None |}.

(** ** The Streamlit script *)

(** [doc.metadata["type"]] *)
Definition doc_type (doc : Document) : result value :=
  match metadata doc !! "type" with
  | Some v => Ok v
  | None => Raise (KeyError "type")
  end.

(** The order in which the interpreter iterates a set: [before w a b] when
    [a] does not come after [b]. *)
Definition before (w : World) (a b : value) : Prop :=
  (set_rank w a ≤ set_rank w b)%Z.

Local Instance before_dec (w : World) : RelDecision (before w).
Proof. intros a b. unfold before. apply _. Defined.

(** [list(set(xs))]: the distinct values, in iteration order. *)
Definition list_set (w : World) (xs : list value) : list value :=
  merge_sort (before w) (elements (list_to_set xs : gset value)).

(** The items of [sep.join(items)], which must all be [str]; [i] is the
    position of the head of [xs] in the sequence. *)
Fixpoint str_items (i : nat) (xs : list value) : result (list string) :=
  match xs with
  | [] => Ok []
  | VStr s :: rest => ss ← str_items (S i) rest; Ok (s :: ss)
  | v :: _ =>
      Raise (TypeError ("sequence item " ++ pretty i
                        ++ ": expected str instance, " ++ type_name v ++ " found"))
  end.

Definition DISCLAIMER : string :=
  NL ++ NL ++ "⚠️ Disclaimer: Consult a doctor before taking any medication.".

(** The [sources] of lines 154-155, when the result has source documents. *)
Definition sources_of (w : World) (docs : list Document) : result (list value) :=
  types ← comprehension doc_type docs;
  Ok (list_set w types).

(** The body of the [try] of a chat turn up to the final [response]. *)
Definition respond (w : World) (chain : RetrievalQA) (question : string) : result string :=
  result ← invoke w chain question;
  let response := result_text result in
  response ←
    match source_documents result with
    | Some docs =>
        sources ← sources_of w docs;
        cited ← str_items 0 sources;
        Ok (response ++ NL ++ NL ++ "Sources: " ++ join ", " cited)
    | None => Ok response
    end;
  Ok (response ++ DISCLAIMER).

Record Message := {
  role : string;
  content : string
}.

Definition user (text : string) : Message := {| role := "user"; content := text |}.
Definition assistant (text : string) : Message := {| role := "assistant"; content := text |}.

Definition GREETING : Message :=
  assistant "Hello! I can help with medicine information, symptoms analysis, and disease information. How can I help you today?".

(** [st.session_state]: a key is [None] until the script sets it. *)
Record SessionState := {
  qa_chain : option RetrievalQA;
  messages : option (list Message)
}.

(** What the script draws.  Spinners vanish when their block ends and are
    left out. *)
Inductive widget :=
| Title (text : string)
| Write (text : string)
| Success (text : string)
| Error (text : string)
| Markdown (text : string).

Inductive element :=
| PageConfig (page_title page_icon : string)
| Top (w : widget)
| InChat (author : string) (w : widget)
| ChatInput (placeholder : string).

(** One run of the script: the session state it leaves, what it drew, and
    whether it ended in [st.stop()]. *)
Record Run := {
  state : SessionState;
  screen : list element;
  stopped : bool
}.

(** The [try] block of the initialisation, with the successes shown before
    an exception, if any. *)
Definition initialize (w : World) : list element * result RetrievalQA :=
  match load_pharma_data w with
  | Raise e => ([], Raise e)
  | Ok docs =>
      let shown1 :=
        [Top (Success ("Loaded " ++ pretty (length docs) ++ " documents from Google Sheets"))] in
      match get_vectorstore w docs with
      | Raise e => (shown1, Raise e)
      | Ok vectorstore =>
          let shown2 := (shown1 ++ [Top (Success "Vector store created successfully")])%list in
          match create_qa_chain w vectorstore with
          | Raise e => (shown2, Raise e)
          | Ok chain => ((shown2 ++ [Top (Success "QA chain initialized")])%list, Ok chain)
          end
      end
  end.

Definition show (m : Message) : element := InChat (role m) (Markdown (content m)).

(** A Python [str] is true when it is not empty. *)
Definition truthy (s : string) : bool :=
  match s with
  | EmptyString => false
  | _ => true
  end.

(** The chat interface, lines 132-162, for a session whose chain is
    [chain]; [drawn] is what the run has drawn so far. *)
Definition chat (w : World) (chat_input : option string) (chain : RetrievalQA)
    (stored : option (list Message)) (drawn : list element) : Run :=
  let history := default [GREETING] stored in
  let drawn := (drawn ++ (show <$> history) ++ [ChatInput "Ask your question..."])%list in
  let idle :=
    {| state := {| qa_chain := Some chain; messages := Some history |};
       screen := drawn;
       stopped := false |} in
  match chat_input with
  | Some question =>
      if truthy question then
        let history := (history ++ [user question])%list in
        let drawn := (drawn ++ [InChat "user" (Markdown question)])%list in
        match respond w chain question with
        | Ok response =>
            {| state := {| qa_chain := Some chain;
                           messages := Some (history ++ [assistant response])%list |};
               screen := (drawn ++ [InChat "assistant" (Markdown response)])%list;
               stopped := false |}
        | Raise e =>
            {| state := {| qa_chain := Some chain; messages := Some history |};
               screen := (drawn ++ [InChat "assistant" (Error ("Error: " ++ str_exn e))])%list;
               stopped := false |}
        end
      else idle
  | None => idle
  end.

(** Lines 118-126: the chain of the session, built when the session has
    none yet. *)
Definition startup (w : World) (ss : SessionState) : list element * result RetrievalQA :=
  match qa_chain ss with
  | Some chain => ([], Ok chain)
  | None => initialize w
  end.

(** What every run draws first. *)
Definition HEADER : list element :=
  [PageConfig "Pharma Assistant" "💊";
   Top (Title "💊 Pharmaceutical Assistant");
   Top (Write "Ask about medicines, symptoms, or diseases")].

(** [main()]: [chat_input] is what [st.chat_input] returns in this run,
    [ss] the session state the run starts from. *)
Definition main (w : World) (chat_input : option string) (ss : SessionState) : Run :=
  let drawn := HEADER in
  let '(shown, started) := startup w ss in
  match started with
  | Raise e =>
      {| state := ss;
         screen := (drawn ++ shown
                    ++ [Top (Error ("Initialization failed: " ++ str_exn e));
                        Top (Error ("Full error: " ++ repr_exn e))])%list;
         stopped := true |}
  | Ok chain => chat w chat_input chain (messages ss) (drawn ++ shown)%list
  end.

(** A session: the script runs once per interaction, on the state the run
    before left. *)
Fixpoint session (runs : list (World * option string)) (ss : SessionState)
    : SessionState * list Run :=
  match runs with
  | [] => (ss, [])
  | (w, chat_input) :: rest =>
      let r := main w chat_input ss in
      let '(final, rs) := session rest (state r) in
      (final, r :: rs)
  end.

End Pipeline.

Arguments World vector : clear implicits.
Arguments VectorStore vector : clear implicits.
Arguments RetrievalQA vector : clear implicits.
Arguments SessionState vector : clear implicits.
Arguments Run vector : clear implicits.

(** The columns each comprehension of [load_pharma_data] reads. *)
Definition MEDICINE_COLUMNS : list string :=
  ["Name"; "Generic Name"; "Uses"; "Side Effects"; "Common Brands (India)"; "Prescription"].
Definition DISEASE_COLUMNS : list string :=
  ["Name"; "Symptoms"; "Recommended Medicines"; "Precautions"].
Definition SYMPTOM_COLUMNS : list string :=
  ["Name"; "Associated Diseases"; "Severity"].

(** A table that has rows has the columns [required]. *)
Definition has_columns (required : list string) (records : list record) : Prop :=
  records = [] ∨ Forall (λ c, c ∈ columns records) required.

Global Instance has_columns_dec (required : list string) (records : list record) :
  Decision (has_columns required records).
Proof. unfold has_columns. apply _. Defined.

(** The three values the script writes under ["type"]. *)
Definition SOURCE_TYPES : list value := [VStr "medicine"; VStr "disease"; VStr "symptom"].

(** A document "has type [ty]" when [doc.metadata["type"]] reads [ty]. *)
Definition typed (ty : string) (doc : Document) : Prop :=
  doc_type doc = Ok (VStr ty).

(** A document whose type is one of the three source types. *)
Definition sourced (doc : Document) : Prop :=
  ∃ v, doc_type doc = Ok v ∧ v ∈ SOURCE_TYPES.

(** Part of the screen that belongs to the chat interface. *)
Definition is_chat (x : element) : bool :=
  match x with
  | InChat _ _ | ChatInput _ => true
  | _ => false
  end.

Definition is_Raise {A} (r : result A) : Prop :=
  match r with
  | Raise _ => True
  | Ok _ => False
  end.

(** ** Concrete sessions, used to run the model *)

Module Scenario.

Definition medicine (name generic : string) : record :=
  {[ "Name" := VStr name; "Generic Name" := VStr generic; "Uses" := VStr "Fever";
     "Side Effects" := VStr "Nausea"; "Common Brands (India)" := VStr "Crocin";
     "Prescription" := VStr "No" ]}.

Definition disease (name : string) : record :=
  {[ "Name" := VStr name; "Symptoms" := VStr "Fever, cough";
     "Recommended Medicines" := VStr "Paracetamol"; "Precautions" := VInt 3 ]}.

Definition WorksheetNotFound (name : string) : exn :=
  ExternalError name ("WorksheetNotFound(" ++ quote name ++ ")").

(** Three Medicines rows, two Diseases rows, no Symptoms row. *)
Definition sheet : Spreadsheet := λ name,
  if decide (name = "Medicines")
  then Ok [medicine "Dolo" "Paracetamol"; medicine "Brufen" "Ibuprofen";
           medicine "Allegra" "Fexofenadine"]
  else if decide (name = "Diseases") then Ok [disease "Flu"; disease "Cold"]
  else if decide (name = "Symptoms") then Ok []
  else Raise (WorksheetNotFound name).

(** The same sheet with a Diseases table that lacks "Precautions". *)
Definition sheet_missing_column : Spreadsheet := λ name,
  if decide (name = "Diseases")
  then Ok [delete "Precautions" (disease "Flu")]
  else sheet name.

(** A one-dimensional embedding: the length of the text. *)
Definition embed (text : string) : result Z := Ok (Z.of_nat (String.length text)).

Definition closer (q u v : Z) : bool := (Z.abs (u - q) <=? Z.abs (v - q))%Z.

Definition TimedOut : exn :=
  ExternalError "Request timed out." "APITimeoutError('Request timed out.')".

Definition rank (v : value) : Z :=
  match v with
  | VStr s => Z.of_nat (String.length s)
  | _ => 0
  end.

Definition world (answer : result string) : World Z :=
  {| environ := {[ "GROQ_API_KEY" := "gsk"; "SPREADSHEET_ID" := "sheet-1" ]};
     authorize := λ _ _, Ok (λ _, Ok sheet);
     HuggingFaceEmbeddings := λ _, Ok embed;
     groq_client := λ _, None;
     groq_complete := λ _ _, answer;
     set_rank := rank |}.

Definition world_missing_column : World Z :=
  {| environ := environ (world (Ok "Rest."));
     authorize := λ _ _, Ok (λ _, Ok sheet_missing_column);
     HuggingFaceEmbeddings := λ _, Ok embed;
     groq_client := λ _, None;
     groq_complete := λ _ _, Ok "Rest.";
     set_rank := rank |}.

(** An embedding model that fails on the texts of diseases. *)
Definition embed_failing (text : string) : result Z :=
  if String.prefix "Disease" text
  then Raise (ExternalError "out of memory" "RuntimeError('out of memory')")
  else embed text.

Definition world_embed_failing : World Z :=
  {| environ := environ (world (Ok "Rest."));
     authorize := λ _ _, Ok (λ _, Ok sheet);
     HuggingFaceEmbeddings := λ _, Ok embed_failing;
     groq_client := λ _, None;
     groq_complete := λ _ _, Ok "Rest.";
     set_rank := rank |}.

(** An environment that also sets a [top_k] and a [temperature]. *)
Definition world_with_options : World Z :=
  {| environ :=
       {[ "GROQ_API_KEY" := "gsk"; "SPREADSHEET_ID" := "sheet-1";
          "top_k" := "7"; "TOP_K" := "7";
          "temperature" := "0.9"; "TEMPERATURE" := "0.9" ]};
     authorize := λ _ _, Ok (λ _, Ok sheet);
     HuggingFaceEmbeddings := λ _, Ok embed;
     groq_client := λ _, None;
     groq_complete := λ _ _, Ok "Rest.";
     set_rank := rank |}.

(** An index of one document. *)
Definition store : VectorStore Z :=
  {| embedding_function := embed;
     docstore :=
       [(14%Z, {| page_content := "Medicine: Dolo";
                  metadata := {[ "type" := VStr "medicine" ]} |})] |}.

Definition fresh : SessionState Z := {| qa_chain := None; messages := None |}.

(** What a result holds; [otherwise] stands in for an exception. *)
Definition get_or {A} (otherwise : A) (r : result A) : A :=
  match r with
  | Ok a => a
  | Raise _ => otherwise
  end.

(** The five documents of the sheet, their index and the chain over it. *)
Definition documents : list Document := get_or [] (load_pharma_data (world (Ok "Rest."))).

Definition index : VectorStore Z :=
  {| embedding_function := embed;
     docstore := (λ d, (Z.of_nat (String.length (page_content d)), d)) <$> documents |}.

Definition chain : RetrievalQA Z :=
  {| llm := {| model := "mistral-saba-24b"; temperature := 0.2; api_key := Some "gsk" |};
     chain_type := "stuff";
     retriever := index;
     search_k := 4;
     prompt := PROMPT_TEMPLATE;
     return_source_documents := true |}.

Definition question : string := "What is Dolo?".

(** The documents nearest to the question. *)
Definition retrieved : list Document :=
  get_or [] (similarity_search closer index question 4).

(** The answer shown when the model says "Rest.". *)
Definition response : string :=
  ("Rest." ++ NL ++ NL ++ "Sources: " ++ join ", " ["disease"; "medicine"]) ++ DISCLAIMER.

(** The session after the first run, and after a first answered turn. *)
Definition started : SessionState Z := {| qa_chain := Some chain; messages := Some [GREETING] |}.

Definition answered : SessionState Z :=
  {| qa_chain := Some chain;
     messages := Some [GREETING; user question; assistant response] |}.

End Scenario.

(** The messages a screen shows as chat bubbles: the Markdown drawn inside
    [st.chat_message] blocks, in order. *)
Definition drawn_message (x : element) : option Message :=
  match x with
  | InChat author (Markdown text) => Some {| role := author; content := text |}
  | _ => None
  end.

Definition drawn_messages (screen : list element) : list Message :=
  omap drawn_message screen.

(** More sheets and indexes to run the model on. *)
Module Cases.

(** A sheet whose three tables have no rows. *)
Definition sheet_empty : Spreadsheet := λ _, Ok [].

(** A Medicines row without "Uses", and no other worksheet. *)
Definition sheet_bad_medicines : Spreadsheet := λ name,
  if decide (name = "Medicines")
  then Ok [delete "Uses" (Scenario.medicine "Dolo" "Paracetamol")]
  else Raise (Scenario.WorksheetNotFound name).

(** The scenario's sheet without its Symptoms worksheet. *)
Definition sheet_no_symptoms : Spreadsheet := λ name,
  if decide (name = "Symptoms")
  then Raise (Scenario.WorksheetNotFound name)
  else Scenario.sheet name.

Definition world_of (sheet : Spreadsheet) : World Z :=
  {| environ := environ (Scenario.world (Ok "Rest."));
     authorize := λ _ _, Ok (λ _, Ok sheet);
     HuggingFaceEmbeddings := λ _, Ok Scenario.embed;
     groq_client := λ _, None;
     groq_complete := λ _ _, Ok "Rest.";
     set_rank := Scenario.rank |}.

Definition ModelNotFound : exn :=
  ExternalError "model not found" "OSError('model not found')".

(** The scenario's world with an embedding model that cannot be loaded. *)
Definition world_no_model : World Z :=
  {| environ := environ (Scenario.world (Ok "Rest."));
     authorize := λ _ _, Ok (λ _, Ok Scenario.sheet);
     HuggingFaceEmbeddings := λ _, Raise ModelNotFound;
     groq_client := λ _, None;
     groq_complete := λ _ _, Ok "Rest.";
     set_rank := Scenario.rank |}.

Definition chain_over (store : VectorStore Z) : RetrievalQA Z :=
  {| llm := {| model := "mistral-saba-24b"; temperature := 0.2; api_key := Some "gsk" |};
     chain_type := "stuff";
     retriever := store;
     search_k := 4;
     prompt := PROMPT_TEMPLATE;
     return_source_documents := true |}.

(** Three turns: answered, timed out, answered. *)
Definition three_turns : list (World Z * option string) :=
  [(Scenario.world (Ok "Rest."), Some Scenario.question);
   (Scenario.world (Raise Scenario.TimedOut), Some "And Brufen?");
   (Scenario.world (Ok "Rest."), Some Scenario.question)].

End Cases.

(** ** Properties *)

Lemma bind_Ok {A B} (m : result A) (k : A → result B) (b : B) :
  m ≫= k = Ok b → ∃ a, m = Ok a ∧ k a = Ok b.
Proof. destruct m as [a|e]; simpl; [eauto | discriminate]. Qed.

Lemma comprehension_Ok {A B} (f : A → result B) (l : list A) (bs : list B) :
  comprehension f l = Ok bs → Forall2 (λ a b, f a = Ok b) l bs.
Proof.
  revert bs. induction l as [|a l IH]; intros bs H; simpl in H.
  - injection H as <-. constructor.
  - apply bind_Ok in H as (b & Hb & H).
    apply bind_Ok in H as (bs' & Hbs & H).
    injection H as <-. constructor; auto.
Qed.

Lemma comprehension_total {A B} (f : A → result B) (l : list A) :
  Forall (λ a, ∃ b, f a = Ok b) l → ∃ bs, comprehension f l = Ok bs.
Proof.
  induction 1 as [|a l [b Hb] _ [bs Hbs]]; simpl; [eauto |].
  rewrite Hb; simpl. rewrite Hbs; simpl. eauto.
Qed.

Lemma comprehension_Raise {A B} (f : A → result B) (l : list A) :
  Exists (λ a, is_Raise (f a)) l → is_Raise (comprehension f l).
Proof.
  induction 1 as [a l Ha | a l _ IH]; simpl.
  - destruct (f a); [destruct Ha | exact I].
  - destruct (f a); simpl; [| exact I].
    destruct (comprehension f l); simpl; [destruct IH | exact I].
Qed.

Lemma getitem_column (cols : gset string) (row : record) (c : string) :
  c ∈ cols → getitem cols row c = Ok (default VNaN (row !! c)).
Proof. intros H. unfold getitem. by rewrite decide_True. Qed.

Lemma getitem_no_column (cols : gset string) (row : record) (c : string) :
  c ∉ cols → getitem cols row c = Raise (KeyError c).
Proof. intros H. unfold getitem. by rewrite decide_False. Qed.

Ltac read_columns H :=
  repeat (rewrite getitem_column by (rewrite ?Forall_cons in H; tauto); simpl).

Lemma medicine_doc_typed (cols : gset string) (row : record) :
  Forall (λ c, c ∈ cols) MEDICINE_COLUMNS →
  ∃ d, medicine_doc cols row = Ok d ∧ typed "medicine" d.
Proof.
  intros H. unfold medicine_doc, MEDICINE_COLUMNS in *. read_columns H.
  eexists; split; [reflexivity | done].
Qed.

Lemma disease_doc_typed (cols : gset string) (row : record) :
  Forall (λ c, c ∈ cols) DISEASE_COLUMNS →
  ∃ d, disease_doc cols row = Ok d ∧ typed "disease" d.
Proof.
  intros H. unfold disease_doc, DISEASE_COLUMNS in *. read_columns H.
  eexists; split; [reflexivity | done].
Qed.

Lemma symptom_doc_typed (cols : gset string) (row : record) :
  Forall (λ c, c ∈ cols) SYMPTOM_COLUMNS →
  ∃ d, symptom_doc cols row = Ok d ∧ typed "symptom" d.
Proof.
  intros H. unfold symptom_doc, SYMPTOM_COLUMNS in *. read_columns H.
  eexists; split; [reflexivity | done].
Qed.

(** Whatever a row constructor returns carries its table's type. *)
Lemma medicine_doc_type (cols : gset string) (row : record) (d : Document) :
  medicine_doc cols row = Ok d → typed "medicine" d.
Proof.
  unfold medicine_doc. intros H.
  repeat (apply bind_Ok in H as (? & _ & H)). by injection H as <-.
Qed.

Lemma disease_doc_type (cols : gset string) (row : record) (d : Document) :
  disease_doc cols row = Ok d → typed "disease" d.
Proof.
  unfold disease_doc. intros H.
  repeat (apply bind_Ok in H as (? & _ & H)). by injection H as <-.
Qed.

Lemma symptom_doc_type (cols : gset string) (row : record) (d : Document) :
  symptom_doc cols row = Ok d → typed "symptom" d.
Proof.
  unfold symptom_doc. intros H.
  repeat (apply bind_Ok in H as (? & _ & H)). by injection H as <-.
Qed.

Lemma table_docs_rows (mk : gset string → record → result Document)
    (required : list string) (ty : string) (records : list record) :
  (∀ cols row, Forall (λ c, c ∈ cols) required →
     ∃ d, mk cols row = Ok d ∧ typed ty d) →
  has_columns required records →
  ∃ docs, table_docs mk records = Ok docs
          ∧ length docs = length records ∧ Forall (typed ty) docs.
Proof.
  intros Hmk Hcols. unfold table_docs.
  destruct Hcols as [-> | Hcols].
  { exists []. simpl. auto. }
  destruct (comprehension_total (mk (columns records)) records) as [docs Hdocs].
  { apply Forall_forall. intros row _.
    destruct (Hmk (columns records) row Hcols) as (d & Hd & _). eauto. }
  exists docs. split; [done |].
  apply comprehension_Ok in Hdocs. split.
  - symmetry. eapply Forall2_length, Hdocs.
  - induction Hdocs as [|row d rs ds Hd _ IH]; constructor; [| done].
    destruct (Hmk (columns records) row Hcols) as (d' & Hd' & Hty). congruence.
Qed.


(** *** Sets of types, and joining them *)

Lemma list_set_Permutation {vector} (w : World vector) (xs : list value) :
  list_set w xs ≡ₚ elements (list_to_set xs : gset value).
Proof. unfold list_set. apply merge_sort_Permutation. Qed.

Lemma list_set_NoDup {vector} (w : World vector) (xs : list value) :
  NoDup (list_set w xs).
Proof. rewrite list_set_Permutation. apply NoDup_elements. Qed.

Lemma list_set_elem_of {vector} (w : World vector) (xs : list value) (x : value) :
  x ∈ list_set w xs ↔ x ∈ xs.
Proof.
  rewrite list_set_Permutation, elem_of_elements. apply elem_of_list_to_set.
Qed.

Lemma list_set_length {vector} (w : World vector) (xs : list value) :
  (length (list_set w xs) ≤ length xs)%nat.
Proof.
  rewrite list_set_Permutation.
  induction xs as [|x xs IH]; simpl.
  - by rewrite elements_empty.
  - destruct (decide (x ∈ (list_to_set xs : gset value))) as [Hin | Hin].
    + rewrite subseteq_union_1_L by (by apply singleton_subseteq_l). lia.
    + rewrite elements_union_singleton by done. simpl. lia.
Qed.

Lemma str_items_Ok (i : nat) (xs : list value) (ss : list string) :
  str_items i xs = Ok ss → xs = VStr <$> ss.
Proof.
  revert i ss. induction xs as [|x xs IH]; intros i ss H; simpl in H.
  - by injection H as <-.
  - destruct x as [s | |]; try discriminate.
    apply bind_Ok in H as (ss' & Hss & H). injection H as <-.
    simpl. f_equal. eauto.
Qed.

Lemma str_items_strs (i : nat) (xs : list value) :
  Forall (λ v, ∃ s, v = VStr s) xs → ∃ ss, str_items i xs = Ok ss.
Proof.
  intros H. revert i. induction H as [|x xs [s ->] _ IH]; intros i; simpl.
  - eauto.
  - destruct (IH (S i)) as [ss ->]. simpl. eauto.
Qed.

(** *** The index and the search *)

Lemma from_documents_Ok {vector} (docs : list Document)
    (embeddings : string → result vector) (vs : VectorStore vector) :
  from_documents docs embeddings = Ok vs →
  embedding_function vs = embeddings
  ∧ (docstore vs).*2 = docs
  ∧ docs ≠ []
  ∧ ∃ vectors, (docstore vs).*1 = vectors
      ∧ Forall2 (λ d v, embeddings (page_content d) = Ok v) docs vectors.
Proof.
  unfold from_documents. intros H.
  apply bind_Ok in H as (vectors & Hv & H).
  apply comprehension_Ok in Hv. rewrite Forall2_fmap_l in Hv.
  assert (length docs = length vectors) as Hlen by (eapply Forall2_length, Hv).
  assert ((zip vectors docs).*2 = docs) as Hdocs by (apply snd_zip; lia).
  assert ((zip vectors docs).*1 = vectors) as Hvecs by (apply fst_zip; lia).
  destruct vectors as [|v vectors]; [discriminate |].
  injection H as <-. cbn [docstore embedding_function].
  split; [done |]. split; [exact Hdocs |].
  split; [intros ->; discriminate |].
  exists (v :: vectors). split; [exact Hvecs | exact Hv].
Qed.

Lemma similarity_search_Ok {vector} (closer : vector → vector → vector → bool)
    (vs : VectorStore vector) (query : string) (k : nat) (found : list Document) :
  similarity_search closer vs query k = Ok found →
  (length found ≤ k)%nat ∧ found ⊆+ (docstore vs).*2.
Proof.
  unfold similarity_search. intros H.
  apply bind_Ok in H as (q & _ & H). injection H as <-.
  split.
  - rewrite length_fmap, length_take. lia.
  - apply fmap_submseteq.
    etrans; [apply submseteq_take |].
    apply Permutation_submseteq, merge_sort_Permutation.
Qed.

(** *** What [load_pharma_data] returns *)

Lemma table_docs_typed (mk : gset string → record → result Document)
    (ty : string) (records : list record) (docs : list Document) :
  (∀ cols row d, mk cols row = Ok d → typed ty d) →
  table_docs mk records = Ok docs → Forall (typed ty) docs.
Proof.
  intros Hmk H. apply comprehension_Ok in H.
  induction H; constructor; eauto.
Qed.

Lemma typed_sourced (ty : string) (doc : Document) :
  VStr ty ∈ SOURCE_TYPES → typed ty doc → sourced doc.
Proof. intros Hty H. exists (VStr ty). auto. Qed.

Lemma load_pharma_data_sourced {vector} (w : World vector) (docs : list Document) :
  load_pharma_data w = Ok docs → Forall sourced docs.
Proof.
  unfold load_pharma_data. intros H.
  apply bind_Ok in H as (sheet & _ & H).
  apply bind_Ok in H as (ms & _ & H).
  apply bind_Ok in H as (mdocs & Hm & H).
  apply bind_Ok in H as (ds & _ & H).
  apply bind_Ok in H as (ddocs & Hd & H).
  apply bind_Ok in H as (ss & _ & H).
  apply bind_Ok in H as (sdocs & Hs & H).
  injection H as <-.
  apply (table_docs_typed _ "medicine" _ _ medicine_doc_type) in Hm.
  apply (table_docs_typed _ "disease" _ _ disease_doc_type) in Hd.
  apply (table_docs_typed _ "symptom" _ _ symptom_doc_type) in Hs.
  rewrite !Forall_app. repeat split.
  - eapply Forall_impl; [exact Hm |]. intros d. apply typed_sourced. set_solver.
  - eapply Forall_impl; [exact Hd |]. intros d. apply typed_sourced. set_solver.
  - eapply Forall_impl; [exact Hs |]. intros d. apply typed_sourced. set_solver.
Qed.

(** A table with rows that lacks a column makes its comprehension raise
    the [KeyError] of the first column read that is missing. *)
Ltac first_missing :=
  repeat match goal with
  | |- context [getitem ?cols ?row ?c] =>
      destruct (decide (c ∈ cols));
      [rewrite (getitem_column cols row c) by done; simpl
      | rewrite (getitem_no_column cols row c) by done; simpl;
        eexists; split; [| reflexivity]; set_solver]
  end.

Lemma medicine_doc_missing (cols : gset string) (row : record) :
  ¬ Forall (λ c, c ∈ cols) MEDICINE_COLUMNS →
  ∃ c, c ∈ MEDICINE_COLUMNS ∧ medicine_doc cols row = Raise (KeyError c).
Proof.
  intros H. unfold medicine_doc. first_missing.
  destruct H. unfold MEDICINE_COLUMNS. repeat constructor; done.
Qed.

Lemma disease_doc_missing (cols : gset string) (row : record) :
  ¬ Forall (λ c, c ∈ cols) DISEASE_COLUMNS →
  ∃ c, c ∈ DISEASE_COLUMNS ∧ disease_doc cols row = Raise (KeyError c).
Proof.
  intros H. unfold disease_doc. first_missing.
  destruct H. unfold DISEASE_COLUMNS. repeat constructor; done.
Qed.

Lemma symptom_doc_missing (cols : gset string) (row : record) :
  ¬ Forall (λ c, c ∈ cols) SYMPTOM_COLUMNS →
  ∃ c, c ∈ SYMPTOM_COLUMNS ∧ symptom_doc cols row = Raise (KeyError c).
Proof.
  intros H. unfold symptom_doc. first_missing.
  destruct H. unfold SYMPTOM_COLUMNS. repeat constructor; done.
Qed.

Lemma table_docs_missing (mk : gset string → record → result Document)
    (required : list string) (records : list record) :
  (∀ cols row, ¬ Forall (λ c, c ∈ cols) required →
     ∃ c, c ∈ required ∧ mk cols row = Raise (KeyError c)) →
  ¬ has_columns required records →
  ∃ c, c ∈ required ∧ table_docs mk records = Raise (KeyError c).
Proof.
  intros Hmk Hno. unfold has_columns in Hno.
  destruct records as [|row rest]; [destruct Hno; by left |].
  destruct (Hmk (columns (row :: rest)) row) as (c & Hc & Hraise); [tauto |].
  exists c. split; [done |].
  unfold table_docs. simpl. by rewrite Hraise.
Qed.

(** X1. When the sheet opens and its three tables are fetched, but some
    table that has rows lacks a column the script reads, [load_pharma_data]
    raises a [KeyError]. *)
Lemma load_pharma_data_missing_column {vector} (w : World vector) (client : Client)
    (sheet : Spreadsheet) (ms ds ss : list record) :
  authorize w "credentials.json" SCOPES = Ok client →
  client (SPREADSHEET_ID w) = Ok sheet →
  sheet "Medicines" = Ok ms →
  sheet "Diseases" = Ok ds →
  sheet "Symptoms" = Ok ss →
  ¬ (has_columns MEDICINE_COLUMNS ms ∧ has_columns DISEASE_COLUMNS ds
     ∧ has_columns SYMPTOM_COLUMNS ss) →
  ∃ c, load_pharma_data w = Raise (KeyError c).
Proof.
  intros Hauth Hopen Hm Hd Hs Hno.
  unfold load_pharma_data, connect_to_gsheets.
  rewrite Hauth; simpl. rewrite Hopen; simpl. rewrite Hm; simpl.
  destruct (decide (has_columns MEDICINE_COLUMNS ms)) as [Cm | Cm].
  2: { destruct (table_docs_missing medicine_doc _ ms medicine_doc_missing Cm)
         as (c & _ & ->). simpl. eauto. }
  destruct (table_docs_rows medicine_doc _ "medicine" ms medicine_doc_typed Cm)
    as (mdocs & -> & _). simpl. rewrite Hd; simpl.
  destruct (decide (has_columns DISEASE_COLUMNS ds)) as [Cd | Cd].
  2: { destruct (table_docs_missing disease_doc _ ds disease_doc_missing Cd)
         as (c & _ & ->). simpl. eauto. }
  destruct (table_docs_rows disease_doc _ "disease" ds disease_doc_typed Cd)
    as (ddocs & -> & _). simpl. rewrite Hs; simpl.
  destruct (decide (has_columns SYMPTOM_COLUMNS ss)) as [Cs | Cs]; [tauto |].
  destruct (table_docs_missing symptom_doc _ ss symptom_doc_missing Cs)
    as (c & _ & ->). simpl. eauto.
Qed.

(** *** Start-up and the script *)

Lemma create_qa_chain_Ok {vector} (w : World vector) (vs : VectorStore vector)
    (chain : RetrievalQA vector) :
  create_qa_chain w vs = Ok chain →
  chain = {| llm := {| model := "mistral-saba-24b"; temperature := 0.2;
                       api_key := getenv w "GROQ_API_KEY" |};
             chain_type := "stuff";
             retriever := vs;
             search_k := 4;
             prompt := PROMPT_TEMPLATE;
             return_source_documents := true |}.
Proof.
  unfold create_qa_chain. destruct (groq_client w _); [discriminate |].
  by injection 1 as <-.
Qed.

(** The three ways the initialisation ends in an exception. *)
Lemma initialize_Raise {vector} (w : World vector) (e : exn) :
  (initialize w).2 = Raise e ↔
  load_pharma_data w = Raise e
  ∨ (∃ docs, load_pharma_data w = Ok docs ∧ get_vectorstore w docs = Raise e)
  ∨ (∃ docs vs, load_pharma_data w = Ok docs ∧ get_vectorstore w docs = Ok vs
                ∧ create_qa_chain w vs = Raise e).
Proof.
  unfold initialize.
  destruct (load_pharma_data w) as [docs | e1]; simpl.
  2: { split; [intros [= ->]; by left | intros [[= ->] | [(? & [=] & _) | (? & ? & [=] & _)]]; done]. }
  destruct (get_vectorstore w docs) as [vs | e2] eqn:Hvs; simpl.
  2: { split.
       - intros [= ->]. right; left. eauto.
       - intros [[=] | [(? & [= <-] & H) | (? & ? & [= <-] & H & _)]]; congruence. }
  destruct (create_qa_chain w vs) as [chain | e3] eqn:Hc; simpl.
  - split; [discriminate |].
    intros [[=] | [(? & [= <-] & H) | (? & ? & [= <-] & H & H')]]; congruence.
  - split.
    + intros [= ->]. right; right. eauto.
    + intros [[=] | [(? & [= <-] & H) | (? & ? & [= <-] & H & H')]]; congruence.
Qed.

Lemma initialize_Ok {vector} (w : World vector) (chain : RetrievalQA vector) :
  (initialize w).2 = Ok chain →
  ∃ docs vs, load_pharma_data w = Ok docs ∧ get_vectorstore w docs = Ok vs
             ∧ create_qa_chain w vs = Ok chain.
Proof.
  unfold initialize.
  destruct (load_pharma_data w) as [docs | e1]; simpl; [| discriminate].
  destruct (get_vectorstore w docs) as [vs | e2] eqn:Hvs; simpl; [| discriminate].
  destruct (create_qa_chain w vs) as [c | e3] eqn:Hc; simpl; [| discriminate].
  intros [= <-]. eauto.
Qed.

(** The success messages the initialisation may have drawn are no part of
    the chat interface. *)
Lemma initialize_no_chat {vector} (w : World vector) :
  Forall (λ x, is_chat x = false) (initialize w).1.
Proof.
  unfold initialize.
  destruct (load_pharma_data w) as [docs | e1]; simpl; [| constructor].
  destruct (get_vectorstore w docs) as [vs | e2]; simpl; [| repeat constructor].
  destruct (create_qa_chain w vs) as [c | e3]; simpl; repeat constructor.
Qed.

Lemma get_vectorstore_Ok {vector} (w : World vector) (docs : list Document)
    (vs : VectorStore vector) :
  get_vectorstore w docs = Ok vs →
  ∃ embeddings,
    HuggingFaceEmbeddings w "sentence-transformers/all-mpnet-base-v2" = Ok embeddings
    ∧ from_documents docs embeddings = Ok vs.
Proof. unfold get_vectorstore. intros H. by apply bind_Ok in H. Qed.

(** A chain built by the initialisation searches, with [k = 4], a non-empty
    index that holds exactly the loaded documents. *)
Lemma initialize_chain {vector} (w : World vector) (chain : RetrievalQA vector) :
  (initialize w).2 = Ok chain →
  search_k chain = 4
  ∧ return_source_documents chain = true
  ∧ load_pharma_data w = Ok (docstore (retriever chain)).*2
  ∧ docstore (retriever chain) ≠ []
  ∧ Forall sourced (docstore (retriever chain)).*2.
Proof.
  intros H. apply initialize_Ok in H as (docs & vs & Hload & Hvs & Hc).
  apply create_qa_chain_Ok in Hc as ->. cbn [search_k return_source_documents retriever].
  apply get_vectorstore_Ok in Hvs as (emb & _ & Hvs).
  apply from_documents_Ok in Hvs as (_ & Hdocs & Hne & _).
  rewrite Hdocs. repeat split; [done | | by eapply load_pharma_data_sourced].
  intros E. rewrite E in Hdocs. simpl in Hdocs. congruence.
Qed.

Lemma main_stopped {vector} (closer : vector → vector → vector → bool)
    (w : World vector) (chat_input : option string) (ss : SessionState vector) (e : exn) :
  (startup w ss).2 = Raise e →
  main closer w chat_input ss =
    {| state := ss;
       screen := (HEADER ++ (startup w ss).1
                  ++ [Top (Error ("Initialization failed: " ++ str_exn e));
                      Top (Error ("Full error: " ++ repr_exn e))])%list;
       stopped := true |}.
Proof.
  unfold main. destruct (startup w ss) as [shown started]. simpl.
  by intros ->.
Qed.

Lemma main_chat {vector} (closer : vector → vector → vector → bool)
    (w : World vector) (chat_input : option string) (ss : SessionState vector)
    (chain : RetrievalQA vector) :
  (startup w ss).2 = Ok chain →
  main closer w chat_input ss =
    chat closer w chat_input chain (messages ss) (HEADER ++ (startup w ss).1)%list.
Proof.
  unfold main. destruct (startup w ss) as [shown started]. simpl.
  by intros ->.
Qed.

Lemma startup_session {vector} (w : World vector) (ss : SessionState vector)
    (chain : RetrievalQA vector) :
  qa_chain ss = Some chain → startup w ss = ([], Ok chain).
Proof. unfold startup. by intros ->. Qed.

(** A run that reaches the chat interface leaves the chain it used in the
    session. *)
Lemma chat_keeps_chain {vector} (closer : vector → vector → vector → bool)
    (w : World vector) (chat_input : option string) (chain : RetrievalQA vector)
    (stored : option (list Message)) (drawn : list element) :
  qa_chain (state (chat closer w chat_input chain stored drawn)) = Some chain
  ∧ stopped (chat closer w chat_input chain stored drawn) = false.
Proof.
  unfold chat. destruct chat_input as [q |]; [| done].
  destruct (truthy q); [| done].
  by destruct (respond closer w chain q).
Qed.

Lemma chat_Ok {vector} (closer : vector → vector → vector → bool)
    (w : World vector) (question : string) (chain : RetrievalQA vector)
    (stored : option (list Message)) (drawn : list element) (response : string) :
  truthy question = true →
  respond closer w chain question = Ok response →
  chat closer w (Some question) chain stored drawn =
    {| state := {| qa_chain := Some chain;
                   messages := Some ((default [GREETING] stored ++ [user question])
                                     ++ [assistant response])%list |};
       screen := ((drawn ++ (show <$> default [GREETING] stored)
                   ++ [ChatInput "Ask your question..."])
                  ++ [InChat "user" (Markdown question)]
                  ++ [InChat "assistant" (Markdown response)])%list;
       stopped := false |}.
Proof.
  intros Hq Hr. unfold chat. rewrite Hq, Hr. by rewrite <- !app_assoc.
Qed.

Lemma chat_Raise {vector} (closer : vector → vector → vector → bool)
    (w : World vector) (question : string) (chain : RetrievalQA vector)
    (stored : option (list Message)) (drawn : list element) (e : exn) :
  truthy question = true →
  respond closer w chain question = Raise e →
  chat closer w (Some question) chain stored drawn =
    {| state := {| qa_chain := Some chain;
                   messages := Some (default [GREETING] stored ++ [user question])%list |};
       screen := ((drawn ++ (show <$> default [GREETING] stored)
                   ++ [ChatInput "Ask your question..."])
                  ++ [InChat "user" (Markdown question)]
                  ++ [InChat "assistant" (Error ("Error: " ++ str_exn e))])%list;
       stopped := false |}.
Proof.
  intros Hq Hr. unfold chat. rewrite Hq, Hr. by rewrite <- !app_assoc.
Qed.

(** *** One answer *)

Lemma invoke_Ok {vector} (closer : vector → vector → vector → bool)
    (w : World vector) (chain : RetrievalQA vector) (query : string) (res : ChainResult) :
  invoke closer w chain query = Ok res →
  ∃ docs answer,
    similarity_search closer (retriever chain) query (search_k chain) = Ok docs
    ∧ groq_complete w (llm chain)
        (prompt chain (join (NL ++ NL) (page_content <$> docs)) query) = Ok answer
    ∧ res = {| result_text := answer;
               source_documents :=
                 if return_source_documents chain then Some docs else None |}.
Proof.
  unfold invoke. intros H.
  apply bind_Ok in H as (docs & Hdocs & H).
  apply bind_Ok in H as (answer & Hanswer & H).
  injection H as <-. eauto.
Qed.

Lemma doc_types_elem_of (docs : list Document) (types : list value) (v : value) :
  Forall2 (λ d t, doc_type d = Ok t) docs types →
  v ∈ types ↔ ∃ d, d ∈ docs ∧ doc_type d = Ok v.
Proof.
  induction 1 as [|d t docs types Hd _ IH].
  - split; [by intros ?%elem_of_nil | by intros (? & ?%elem_of_nil & _)].
  - rewrite elem_of_cons, IH. split.
    + intros [-> | (d' & Hin & Hty)].
      * exists d. split; [left | done].
      * exists d'. split; [by right | done].
    + intros (d' & [-> | Hin]%elem_of_cons & Hty).
      * left. congruence.
      * right. eauto.
Qed.

Lemma sources_of_Ok {vector} (w : World vector) (docs : list Document)
    (sources : list value) :
  sources_of w docs = Ok sources →
  NoDup sources
  ∧ (length sources ≤ length docs)%nat
  ∧ ∀ v, v ∈ sources ↔ ∃ d, d ∈ docs ∧ doc_type d = Ok v.
Proof.
  unfold sources_of. intros H.
  apply bind_Ok in H as (types & Htypes & H). injection H as <-.
  apply comprehension_Ok in Htypes.
  split; [apply list_set_NoDup |]. split.
  - rewrite (Forall2_length _ _ _ Htypes). apply list_set_length.
  - intros v. rewrite list_set_elem_of. by apply doc_types_elem_of.
Qed.

Lemma sources_of_sourced {vector} (w : World vector) (docs : list Document) :
  Forall sourced docs →
  ∃ sources cited,
    sources_of w docs = Ok sources
    ∧ str_items 0 sources = Ok cited
    ∧ sources = VStr <$> cited
    ∧ Forall (λ v, v ∈ SOURCE_TYPES) sources.
Proof.
  intros Hdocs.
  destruct (comprehension_total doc_type docs) as [types Htypes].
  { eapply Forall_impl; [exact Hdocs |]. intros d (v & Hv & _). eauto. }
  assert (sources_of w docs = Ok (list_set w types)) as Hs
    by (unfold sources_of; by rewrite Htypes).
  assert (Forall (λ v, v ∈ SOURCE_TYPES) (list_set w types)) as Hin.
  { apply Forall_forall. intros v Hv.
    apply sources_of_Ok in Hs as (_ & _ & Hs). apply Hs in Hv as (d & Hd & Hty).
    rewrite Forall_forall in Hdocs. destruct (Hdocs d Hd) as (v' & Hv' & Hsrc).
    congruence. }
  destruct (str_items_strs 0 (list_set w types)) as [cited Hcited].
  { eapply Forall_impl; [exact Hin |]. intros v Hv.
    unfold SOURCE_TYPES in Hv. rewrite !elem_of_cons, elem_of_nil in Hv.
    destruct Hv as [-> | [-> | [-> | []]]]; eauto. }
  exists (list_set w types), cited.
  repeat split; [done | done | by apply str_items_Ok in Hcited | done].
Qed.

Lemma respond_Ok {vector} (closer : vector → vector → vector → bool)
    (w : World vector) (chain : RetrievalQA vector) (question response : string) :
  respond closer w chain question = Ok response →
  ∃ res, invoke closer w chain question = Ok res ∧
    match source_documents res with
    | Some docs =>
        ∃ sources cited,
          sources_of w docs = Ok sources
          ∧ str_items 0 sources = Ok cited
          ∧ response =
              (result_text res ++ NL ++ NL ++ "Sources: " ++ join ", " cited)
              ++ DISCLAIMER
    | None => response = result_text res ++ DISCLAIMER
    end.
Proof.
  unfold respond. intros H.
  apply bind_Ok in H as (res & Hres & H). exists res. split; [done |].
  apply bind_Ok in H as (body & Hbody & H). injection H as <-.
  destruct (source_documents res) as [docs |].
  - apply bind_Ok in Hbody as (sources & Hs & Hbody).
    apply bind_Ok in Hbody as (cited & Hc & Hbody).
    injection Hbody as <-. eauto.
  - by injection Hbody as <-.
Qed.

(** A failure of the generation service, after a successful retrieval, is
    the exception of the whole answer. *)
Lemma respond_generation_error {vector} (closer : vector → vector → vector → bool)
    (w : World vector) (chain : RetrievalQA vector) (question : string)
    (docs : list Document) (e : exn) :
  similarity_search closer (retriever chain) question (search_k chain) = Ok docs →
  groq_complete w (llm chain)
    (prompt chain (join (NL ++ NL) (page_content <$> docs)) question) = Raise e →
  respond closer w chain question = Raise e.
Proof.
  intros Hdocs Hgen. unfold respond, invoke. rewrite Hdocs. simpl.
  by rewrite Hgen.
Qed.

(** *** The line of sources *)

(** [join] is the standard library's [String.concat]. *)
Lemma join_concat (sep : string) (items : list string) :
  join sep items = String.concat sep items.
Proof.
  induction items as [|s items IH]; [done |].
  destruct items as [|s' items]; [done |].
  change (s ++ sep ++ join sep (s' :: items)
          = s ++ sep ++ String.concat sep (s' :: items)).
  by rewrite IH.
Qed.

Lemma doc_type_lookup (doc : Document) (v : value) :
  doc_type doc = Ok v ↔ metadata doc !! "type" = Some v.
Proof.
  unfold doc_type. destruct (metadata doc !! "type"); split; congruence.
Qed.

(** The strings joined into the line of sources are, without duplicates,
    the types found under ["type"] in the metadata of the documents. *)
Lemma cited_types_spec {vector} (w : World vector) (docs : list Document)
    (sources : list value) (cited : list string) :
  sources_of w docs = Ok sources →
  str_items 0 sources = Ok cited →
  NoDup cited
  ∧ ∀ ty, ty ∈ cited ↔ ∃ doc, doc ∈ docs ∧ metadata doc !! "type" = Some (VStr ty).
Proof.
  intros Hs Hc. apply str_items_Ok in Hc as ->.
  apply sources_of_Ok in Hs as (Hnodup & _ & Hmem).
  split; [eapply NoDup_fmap_1, Hnodup |].
  intros ty. transitivity (VStr ty ∈ VStr <$> cited).
  - split; [by apply list_elem_of_fmap_2 |].
    by intros (ty' & [= ->] & Hin)%list_elem_of_fmap.
  - rewrite Hmem. by setoid_rewrite doc_type_lookup.
Qed.
Section Properties.
Context {vector : Type} (closer : vector → vector → vector → bool).
Implicit Types (w : World vector) (chain : RetrievalQA vector).

(** C1. When the sheet opens and each of its three tables has the columns
    the script reads, [load_pharma_data] returns the documents of the
    Medicines rows, then those of the Diseases rows, then those of the
    Symptoms rows: one document per row, each with the type of its table. *)
Theorem load_pharma_data_one_document_per_row w (client : Client)
    (sheet : Spreadsheet) (ms ds ss : list record) :
  authorize w "credentials.json" SCOPES = Ok client →
  client (SPREADSHEET_ID w) = Ok sheet →
  sheet "Medicines" = Ok ms →
  sheet "Diseases" = Ok ds →
  sheet "Symptoms" = Ok ss →
  has_columns MEDICINE_COLUMNS ms →
  has_columns DISEASE_COLUMNS ds →
  has_columns SYMPTOM_COLUMNS ss →
  ∃ mdocs ddocs sdocs,
    load_pharma_data w = Ok (mdocs ++ ddocs ++ sdocs)%list
    ∧ length (mdocs ++ ddocs ++ sdocs)%list = length ms + length ds + length ss
    ∧ length mdocs = length ms ∧ Forall (typed "medicine") mdocs
    ∧ length ddocs = length ds ∧ Forall (typed "disease") ddocs
    ∧ length sdocs = length ss ∧ Forall (typed "symptom") sdocs.
Proof.
  intros Hauth Hopen Hm Hd Hs Cm Cd Cs.
  destruct (table_docs_rows medicine_doc _ "medicine" ms medicine_doc_typed Cm)
    as (mdocs & Em & Lm & Tm).
  destruct (table_docs_rows disease_doc _ "disease" ds disease_doc_typed Cd)
    as (ddocs & Ed & Ld & Td).
  destruct (table_docs_rows symptom_doc _ "symptom" ss symptom_doc_typed Cs)
    as (sdocs & Es & Ls & Ts).
  exists mdocs, ddocs, sdocs.
  split; [| rewrite !length_app; repeat split; auto; lia].
  unfold load_pharma_data, connect_to_gsheets.
  rewrite Hauth; simpl. rewrite Hopen; simpl.
  rewrite Hm; simpl. rewrite Em; simpl.
  rewrite Hd; simpl. rewrite Ed; simpl.
  rewrite Hs; simpl. by rewrite Es.
Qed.


(** C2. When a question is answered, the answer shown is the generated text
    followed by a blank line, "Sources: " and the source types separated by
    ", ", then a blank line and the disclaimer; the types listed are without
    duplicates and are exactly the values found under "type" in the
    metadata of the retrieved documents, in whatever order the set yields
    them. *)
Theorem cited_sources_are_the_distinct_types w chain (question response : string)
    (res : ChainResult) (docs : list Document) :
  respond closer w chain question = Ok response →
  invoke closer w chain question = Ok res →
  source_documents res = Some docs →
  ∃ cited : list string,
    response =
      (result_text res ++ NL ++ NL ++ "Sources: " ++ String.concat ", " cited)
      ++ NL ++ NL ++ "⚠️ Disclaimer: Consult a doctor before taking any medication."
    ∧ NoDup cited
    ∧ ∀ ty, ty ∈ cited ↔
        ∃ doc, doc ∈ docs ∧ metadata doc !! "type" = Some (VStr ty).
Proof.
  intros Hresp Hres Hdocs.
  apply respond_Ok in Hresp as (res' & Hres' & Hresp).
  assert (res' = res) as -> by congruence.
  rewrite Hdocs in Hresp. destruct Hresp as (sources & cited & Hs & Hc & ->).
  exists cited. split.
  - by rewrite join_concat.
  - exact (cited_types_spec w docs sources cited Hs Hc).
Qed.

(** C3. With a chain built by the initialisation, hence over the documents
    of [load_pharma_data], every answered question cites only types among
    medicine, disease and symptom, and at most 4 of them: the documents
    retrieved are at most 4, all from the index. *)
Theorem cited_types_within_source_types (w0 w : World vector) chain
    (question : string) (res : ChainResult) :
  (initialize w0).2 = Ok chain →
  invoke closer w chain question = Ok res →
  ∃ docs sources cited,
    source_documents res = Some docs
    ∧ (length docs ≤ 4)%nat
    ∧ docs ⊆+ (docstore (retriever chain)).*2
    ∧ sources_of w docs = Ok sources
    ∧ str_items 0 sources = Ok cited
    ∧ sources = VStr <$> cited
    ∧ Forall (λ v, v ∈ SOURCE_TYPES) sources
    ∧ NoDup sources
    ∧ (length sources ≤ 4)%nat.
Proof.
  intros Hinit Hres.
  apply initialize_chain in Hinit as (Hk & Hret & _ & _ & Hsrc).
  apply invoke_Ok in Hres as (docs & answer & Hdocs & _ & ->).
  rewrite Hret, Hk in *. cbn [source_documents].
  apply similarity_search_Ok in Hdocs as (Hlen & Hsub).
  assert (Forall sourced docs) as Hdocs.
  { rewrite Forall_forall in *. intros d Hd. apply Hsrc.
    eapply elem_of_submseteq; eauto. }
  destruct (sources_of_sourced w docs Hdocs) as (sources & cited & Hs & Hc & Heq & Hin).
  exists docs, sources, cited.
  destruct (sources_of_Ok _ _ _ Hs) as (Hnodup & Hlen' & _).
  repeat split; try done. lia.
Qed.

(** C4. Two answers to the same question from the same chain, whatever the
    generation service returned each time, come with the same retrieved
    documents and the same set of cited types. *)
Theorem cited_types_idempotent (w1 w2 : World vector) chain (question : string)
    (res1 res2 : ChainResult) (docs : list Document) (sources1 : list value) :
  invoke closer w1 chain question = Ok res1 →
  invoke closer w2 chain question = Ok res2 →
  source_documents res1 = Some docs →
  sources_of w1 docs = Ok sources1 →
  source_documents res2 = Some docs
  ∧ ∃ sources2,
      sources_of w2 docs = Ok sources2
      ∧ sources1 ≡ₚ sources2
      ∧ (list_to_set sources1 : gset value) = list_to_set sources2.
Proof.
  intros H1 H2 Hdocs Hs.
  apply invoke_Ok in H1 as (docs1 & a1 & Hd1 & _ & ->).
  apply invoke_Ok in H2 as (docs2 & a2 & Hd2 & _ & ->).
  assert (docs2 = docs1) as -> by congruence.
  cbn [source_documents] in *. split; [done |].
  unfold sources_of in *.
  apply bind_Ok in Hs as (types & -> & Hs). injection Hs as <-. simpl.
  exists (list_set w2 types). split; [done |].
  assert (list_set w1 types ≡ₚ list_set w2 types) as Hperm
    by (by rewrite !list_set_Permutation).
  split; [done |]. by rewrite Hperm.
Qed.

(** C5. In a turn whose answer is produced, the run appends to the history
    a message of role "user" with the question and then a message of role
    "assistant" whose content is the answer, and that content ends with the
    disclaimer. *)
Theorem successful_turn_appends_disclaimed_answer w (ss : SessionState vector) chain
    (question response : string) :
  (startup w ss).2 = Ok chain →
  truthy question = true →
  respond closer w chain question = Ok response →
  ∃ body,
    response = body ++ NL ++ NL ++ "⚠️ Disclaimer: Consult a doctor before taking any medication."
    ∧ messages (state (main closer w (Some question) ss)) =
        Some (default [GREETING] (messages ss)
              ++ [{| role := "user"; content := question |};
                  {| role := "assistant";
                     content := body ++ NL ++ NL ++ "⚠️ Disclaimer: Consult a doctor before taking any medication." |}])%list.
Proof.
  intros Hstart Hq Hresp.
  rewrite (main_chat closer w _ ss chain Hstart), (chat_Ok closer w _ _ _ _ response Hq Hresp).
  cbn [state messages].
  unfold respond in Hresp.
  apply bind_Ok in Hresp as (res & _ & Hresp).
  apply bind_Ok in Hresp as (body & _ & Hresp).
  injection Hresp as <-. exists body.
  split; [done |]. by rewrite <- app_assoc.
Qed.

(** C6. When the generation service fails in a turn of a running session,
    the run does not stop, shows the error in the assistant's bubble, keeps
    the chain and the earlier history (now followed by the question), and
    the next run answers with the same chain, without a new
    initialisation. *)
Theorem generation_error_is_local w (ss : SessionState vector) chain
    (history : list Message) (question : string) (docs : list Document) (e : exn) :
  qa_chain ss = Some chain →
  messages ss = Some history →
  truthy question = true →
  similarity_search closer (retriever chain) question (search_k chain) = Ok docs →
  groq_complete w (llm chain)
    (prompt chain (join (NL ++ NL) (page_content <$> docs)) question) = Raise e →
  let r := main closer w (Some question) ss in
  stopped r = false
  ∧ qa_chain (state r) = Some chain
  ∧ messages (state r) = Some (history ++ [user question])%list
  ∧ InChat "assistant" (Error ("Error: " ++ str_exn e)) ∈ screen r
  ∧ (∀ (w' : World vector) (next : option string),
       main closer w' next (state r) =
         chat closer w' next chain (Some (history ++ [user question])%list) HEADER)
  ∧ (∀ (w' : World vector) (question' response : string),
       truthy question' = true →
       respond closer w' chain question' = Ok response →
       messages (state (main closer w' (Some question') (state r))) =
         Some (history ++ [user question; user question'; assistant response])%list).
Proof.
  intros Hchain Hhist Hq Hdocs Hgen r.
  pose proof (respond_generation_error closer w chain question docs e Hdocs Hgen) as Hresp.
  assert (r = chat closer w (Some question) chain (messages ss) HEADER) as Hr.
  { unfold r. rewrite (main_chat closer w _ ss chain); rewrite (startup_session w ss chain Hchain);
      [by rewrite app_nil_r | done]. }
  rewrite (chat_Raise closer w _ _ _ _ e Hq Hresp), Hhist in Hr. cbn [default] in Hr.
  assert (∀ (w' : World vector) next,
            main closer w' next (state r) =
              chat closer w' next chain (Some (history ++ [user question])%list) HEADER)
    as Hnext.
  { intros w' next. rewrite Hr. cbn [state].
    rewrite (main_chat closer w' next _ chain) by done.
    cbn [messages startup qa_chain fst]. by rewrite app_nil_r. }
  repeat split.
  - by rewrite Hr.
  - by rewrite Hr.
  - by rewrite Hr.
  - rewrite Hr. cbn [screen]. rewrite !elem_of_app. right. right.
    apply list_elem_of_singleton. done.
  - exact Hnext.
  - intros w' question' response Hq' Hresp'.
    rewrite Hnext, (chat_Ok closer w' _ _ _ _ response Hq' Hresp').
    simpl. by rewrite <- !app_assoc.
Qed.

(** C7. When the initialisation of a session without a chain raises an
    exception (from loading the sheet, from building the index or from
    creating the chain), the run shows the two error messages and stops:
    the session state is left as it was, and nothing of the chat interface
    is drawn, neither a message nor the input box. *)
Theorem startup_failure_halts w (chat_input : option string)
    (ss : SessionState vector) (e : exn) :
  qa_chain ss = None →
  (initialize w).2 = Raise e →
  let r := main closer w chat_input ss in
  stopped r = true
  ∧ state r = ss
  ∧ Top (Error ("Initialization failed: " ++ str_exn e)) ∈ screen r
  ∧ Top (Error ("Full error: " ++ repr_exn e)) ∈ screen r
  ∧ Forall (λ x, is_chat x = false) (screen r).
Proof.
  intros Hnone Hfail r.
  assert (startup w ss = initialize w) as Hs by (unfold startup; by rewrite Hnone).
  assert ((startup w ss).2 = Raise e) as Hraise by (by rewrite Hs).
  unfold r. rewrite (main_stopped closer w chat_input ss e Hraise). cbn [stopped state screen].
  repeat split.
  - rewrite !elem_of_app. right. right. apply elem_of_cons. by left.
  - rewrite !elem_of_app. right. right. apply elem_of_cons. right.
    by apply list_elem_of_singleton.
  - rewrite !Forall_app. repeat split.
    + unfold HEADER. repeat constructor.
    + rewrite Hs. apply initialize_no_chat.
    + repeat constructor.
Qed.

(** C8, as the code has it.  Whatever the environment holds, a chain that
    [create_qa_chain] returns retrieves with the constant [k = 4] and asks
    the model with the constant temperature 0.2, which lies in [0, 1]; the
    environment supplies the API key ([GROQ_API_KEY]) and the spreadsheet
    id ([SPREADSHEET_ID]) only.  An answer of that chain carries the at most
    4 documents of that search and the text of that model call. *)
Theorem retrieval_and_generation_settings_are_constants w (vs : VectorStore vector)
    chain :
  create_qa_chain w vs = Ok chain →
  search_k chain = 4
  ∧ temperature (llm chain) = 0.2%Q
  ∧ (0 <= temperature (llm chain) <= 1)%Q
  ∧ api_key (llm chain) = environ w !! "GROQ_API_KEY"
  ∧ SPREADSHEET_ID w = environ w !! "SPREADSHEET_ID"
  ∧ ∀ (w' : World vector) (question : string) (res : ChainResult),
      invoke closer w' chain question = Ok res →
      ∃ docs,
        similarity_search closer vs question 4 = Ok docs
        ∧ (length docs ≤ 4)%nat
        ∧ source_documents res = Some docs
        ∧ groq_complete w'
            {| model := "mistral-saba-24b"; temperature := 0.2;
               api_key := environ w !! "GROQ_API_KEY" |}
            (PROMPT_TEMPLATE (join (NL ++ NL) (page_content <$> docs)) question)
          = Ok (result_text res).
Proof.
  intros H. apply create_qa_chain_Ok in H as ->.
  cbn [search_k llm temperature api_key].
  repeat split; try done.
  intros w' question res Hres.
  apply invoke_Ok in Hres as (docs & answer & Hdocs & Hgen & ->).
  cbn [retriever search_k llm prompt return_source_documents] in *.
  exists docs. repeat split; try done.
  by apply similarity_search_Ok in Hdocs as [? _].
Qed.

(** C9. Building the index embeds every document: when the embedding of
    some document fails, [get_vectorstore] raises; a store it returns holds
    all the documents, each with its embedding; and a run whose index build
    raises stops with the session still without a chain. *)
Theorem index_build_is_all_or_nothing w (docs : list Document)
    (embeddings : string → result vector) :
  HuggingFaceEmbeddings w "sentence-transformers/all-mpnet-base-v2" = Ok embeddings →
  (Exists (λ d, is_Raise (embeddings (page_content d))) docs →
     is_Raise (get_vectorstore w docs))
  ∧ (∀ vs, get_vectorstore w docs = Ok vs →
       (docstore vs).*2 = docs
       ∧ Forall2 (λ d v, embeddings (page_content d) = Ok v) docs (docstore vs).*1)
  ∧ (∀ (chat_input : option string) (ss : SessionState vector),
       qa_chain ss = None →
       load_pharma_data w = Ok docs →
       is_Raise (get_vectorstore w docs) →
       stopped (main closer w chat_input ss) = true
       ∧ qa_chain (state (main closer w chat_input ss)) = None).
Proof.
  intros Hemb. split; [| split].
  - intros Hfail. unfold get_vectorstore, from_documents. rewrite Hemb. simpl.
    pose proof (comprehension_Raise embeddings (page_content <$> docs)) as Hc.
    destruct (comprehension embeddings (page_content <$> docs)); [| exact I].
    destruct Hc. by rewrite Exists_fmap.
  - intros vs Hvs. apply get_vectorstore_Ok in Hvs as (emb' & Hemb' & Hvs).
    assert (emb' = embeddings) as -> by congruence.
    apply from_documents_Ok in Hvs as (_ & Hdocs & _ & vectors & <- & Hv). done.
  - intros chat_input ss Hnone Hload Hfail.
    destruct (get_vectorstore w docs) as [vs | e] eqn:Hvs; [destruct Hfail |].
    assert ((startup w ss).2 = Raise e) as Hraise.
    { unfold startup. rewrite Hnone. apply initialize_Raise. right; left. eauto. }
    rewrite (main_stopped closer w chat_input ss e Hraise). done.
Qed.

End Properties.

(** The scenario of three Medicines rows, two Diseases rows and no Symptoms
    row: five documents. *)
Lemma load_pharma_data_scenario :
  ∃ mdocs ddocs sdocs,
    load_pharma_data (Scenario.world (Ok "Rest.")) = Ok (mdocs ++ ddocs ++ sdocs)%list
    ∧ length (mdocs ++ ddocs ++ sdocs)%list = 3 + 2 + 0
    ∧ length mdocs = 3 ∧ Forall (typed "medicine") mdocs
    ∧ length ddocs = 2 ∧ Forall (typed "disease") ddocs
    ∧ length sdocs = 0 ∧ Forall (typed "symptom") sdocs.
Proof.
  apply (load_pharma_data_one_document_per_row (Scenario.world (Ok "Rest."))
           (λ _, Ok Scenario.sheet) Scenario.sheet
           [Scenario.medicine "Dolo" "Paracetamol";
            Scenario.medicine "Brufen" "Ibuprofen";
            Scenario.medicine "Allegra" "Fexofenadine"]
           [Scenario.disease "Flu"; Scenario.disease "Cold"] []);
    try reflexivity.
  - right. vm_compute. repeat constructor.
  - right. vm_compute. repeat constructor.
  - by left.
Defined.

(** The scenario's question, answered "Rest.": the answer lists the two
    types of the four documents retrieved. *)
Lemma cited_sources_scenario :
  ∃ cited : list string,
    "Rest." ++ NL ++ NL ++ "Sources: disease, medicine" ++ NL ++ NL ++ "⚠️ Disclaimer: Consult a doctor before taking any medication."
    = ("Rest." ++ NL ++ NL ++ "Sources: " ++ String.concat ", " cited)
      ++ NL ++ NL ++ "⚠️ Disclaimer: Consult a doctor before taking any medication."
    ∧ NoDup cited
    ∧ ∀ ty, ty ∈ cited ↔
        ∃ doc, doc ∈ Scenario.retrieved ∧ metadata doc !! "type" = Some (VStr ty).
Proof.
  apply (cited_sources_are_the_distinct_types Scenario.closer
           (Scenario.world (Ok "Rest.")) Scenario.chain Scenario.question
           ("Rest." ++ NL ++ NL ++ "Sources: disease, medicine" ++ NL ++ NL ++ "⚠️ Disclaimer: Consult a doctor before taking any medication.")
           {| result_text := "Rest."; source_documents := Some Scenario.retrieved |}
           Scenario.retrieved).
  - vm_compute. reflexivity.
  - vm_compute. reflexivity.
  - reflexivity.
Defined.

(** The chain the scenario's initialisation builds cites at most four
    source types. *)
Lemma cited_types_scenario :
  ∃ docs sources cited,
    Some Scenario.retrieved = Some docs
    ∧ (length docs ≤ 4)%nat
    ∧ docs ⊆+ (docstore (retriever Scenario.chain)).*2
    ∧ sources_of (Scenario.world (Ok "Rest.")) docs = Ok sources
    ∧ str_items 0 sources = Ok cited
    ∧ sources = VStr <$> cited
    ∧ Forall (λ v, v ∈ SOURCE_TYPES) sources
    ∧ NoDup sources
    ∧ (length sources ≤ 4)%nat.
Proof.
  apply (cited_types_within_source_types Scenario.closer
           (Scenario.world (Ok "Rest.")) (Scenario.world (Ok "Rest."))
           Scenario.chain Scenario.question
           {| result_text := "Rest."; source_documents := Some Scenario.retrieved |}).
  - vm_compute. reflexivity.
  - vm_compute. reflexivity.
Defined.

(** The same question asked twice, answered "Rest." and then "Drink
    fluids.": the same documents and the same cited types. *)
Lemma cited_types_idempotent_scenario :
  Some Scenario.retrieved = Some Scenario.retrieved
  ∧ ∃ sources2,
      sources_of (Scenario.world (Ok "Drink fluids.")) Scenario.retrieved = Ok sources2
      ∧ [VStr "disease"; VStr "medicine"] ≡ₚ sources2
      ∧ (list_to_set [VStr "disease"; VStr "medicine"] : gset value)
        = list_to_set sources2.
Proof.
  apply (cited_types_idempotent Scenario.closer
           (Scenario.world (Ok "Rest.")) (Scenario.world (Ok "Drink fluids."))
           Scenario.chain Scenario.question
           {| result_text := "Rest."; source_documents := Some Scenario.retrieved |}
           {| result_text := "Drink fluids.";
              source_documents := Some Scenario.retrieved |}
           Scenario.retrieved [VStr "disease"; VStr "medicine"]).
  - vm_compute. reflexivity.
  - vm_compute. reflexivity.
  - reflexivity.
  - vm_compute. reflexivity.
Defined.

(** The first question of the scenario's session. *)
Lemma successful_turn_scenario :
  ∃ body,
    "Rest." ++ NL ++ NL ++ "Sources: disease, medicine" ++ NL ++ NL ++ "⚠️ Disclaimer: Consult a doctor before taking any medication."
    = body ++ NL ++ NL ++ "⚠️ Disclaimer: Consult a doctor before taking any medication."
    ∧ messages (state (main Scenario.closer (Scenario.world (Ok "Rest."))
                         (Some "What is Dolo?") Scenario.started)) =
        Some (default [GREETING] (messages Scenario.started)
              ++ [{| role := "user"; content := "What is Dolo?" |};
                  {| role := "assistant";
                     content := body ++ NL ++ NL ++ "⚠️ Disclaimer: Consult a doctor before taking any medication." |}])%list.
Proof.
  apply (successful_turn_appends_disclaimed_answer Scenario.closer
           (Scenario.world (Ok "Rest.")) Scenario.started Scenario.chain
           "What is Dolo?"
           ("Rest." ++ NL ++ NL ++ "Sources: disease, medicine" ++ NL ++ NL ++ "⚠️ Disclaimer: Consult a doctor before taking any medication.")).
  - reflexivity.
  - reflexivity.
  - vm_compute. reflexivity.
Defined.

(** The generation service times out on the second turn of the scenario's
    session. *)
Lemma generation_error_scenario :
  let r := main Scenario.closer (Scenario.world (Raise Scenario.TimedOut))
             (Some "And Brufen?") Scenario.answered in
  stopped r = false
  ∧ qa_chain (state r) = Some Scenario.chain
  ∧ messages (state r) =
      Some ([GREETING; user Scenario.question; assistant Scenario.response]
            ++ [user "And Brufen?"])%list
  ∧ InChat "assistant" (Error ("Error: " ++ str_exn Scenario.TimedOut)) ∈ screen r
  ∧ (∀ (w' : World Z) (next : option string),
       main Scenario.closer w' next (state r) =
         chat Scenario.closer w' next Scenario.chain
           (Some ([GREETING; user Scenario.question; assistant Scenario.response]
                  ++ [user "And Brufen?"])%list) HEADER)
  ∧ (∀ (w' : World Z) (question' response : string),
       truthy question' = true →
       respond Scenario.closer w' Scenario.chain question' = Ok response →
       messages (state (main Scenario.closer w' (Some question') (state r))) =
         Some ([GREETING; user Scenario.question; assistant Scenario.response]
               ++ [user "And Brufen?"; user question'; assistant response])%list).
Proof.
  apply (generation_error_is_local Scenario.closer
           (Scenario.world (Raise Scenario.TimedOut)) Scenario.answered Scenario.chain
           [GREETING; user Scenario.question; assistant Scenario.response]
           "And Brufen?"
           (Scenario.get_or []
              (similarity_search Scenario.closer Scenario.index "And Brufen?" 4))
           Scenario.TimedOut).
  - reflexivity.
  - reflexivity.
  - reflexivity.
  - vm_compute. reflexivity.
  - reflexivity.
Defined.

(** The Diseases table of the sheet lacks the column "Precautions". *)
Lemma startup_failure_scenario :
  let r := main Scenario.closer Scenario.world_missing_column None Scenario.fresh in
  stopped r = true
  ∧ state r = Scenario.fresh
  ∧ Top (Error ("Initialization failed: " ++ str_exn (KeyError "Precautions")))
      ∈ screen r
  ∧ Top (Error ("Full error: " ++ repr_exn (KeyError "Precautions"))) ∈ screen r
  ∧ Forall (λ x, is_chat x = false) (screen r).
Proof.
  apply (startup_failure_halts Scenario.closer Scenario.world_missing_column None
           Scenario.fresh (KeyError "Precautions")).
  - reflexivity.
  - vm_compute. reflexivity.
Defined.

(** An environment that sets [top_k] to 7 and [temperature] to 0.9, under
    both spellings: the chain still searches with [k = 4] and asks with
    temperature 0.2, so neither is taken from the configuration. *)
Lemma top_k_and_temperature_are_not_configuration :
  ∃ chain,
    create_qa_chain Scenario.world_with_options Scenario.store = Ok chain
    ∧ getenv Scenario.world_with_options "top_k" = Some "7"
    ∧ getenv Scenario.world_with_options "TOP_K" = Some "7"
    ∧ search_k chain ≠ 7
    ∧ getenv Scenario.world_with_options "temperature" = Some "0.9"
    ∧ getenv Scenario.world_with_options "TEMPERATURE" = Some "0.9"
    ∧ ¬ (temperature (llm chain) == 0.9)%Q.
Proof.
  eexists. split; [reflexivity |].
  repeat split; try (vm_compute; reflexivity); vm_compute; discriminate.
Defined.

(** The settings of the chain built in that environment. *)
Lemma retrieval_and_generation_settings_scenario :
  let chain :=
    {| llm := {| model := "mistral-saba-24b"; temperature := 0.2; api_key := Some "gsk" |};
       chain_type := "stuff";
       retriever := Scenario.store;
       search_k := 4;
       prompt := PROMPT_TEMPLATE;
       return_source_documents := true |} in
  search_k chain = 4
  ∧ temperature (llm chain) = 0.2%Q
  ∧ (0 <= temperature (llm chain) <= 1)%Q
  ∧ api_key (llm chain) = environ Scenario.world_with_options !! "GROQ_API_KEY"
  ∧ SPREADSHEET_ID Scenario.world_with_options
    = environ Scenario.world_with_options !! "SPREADSHEET_ID"
  ∧ ∀ (w' : World Z) (question : string) (res : ChainResult),
      invoke Scenario.closer w' chain question = Ok res →
      ∃ docs,
        similarity_search Scenario.closer Scenario.store question 4 = Ok docs
        ∧ (length docs ≤ 4)%nat
        ∧ source_documents res = Some docs
        ∧ groq_complete w'
            {| model := "mistral-saba-24b"; temperature := 0.2;
               api_key := environ Scenario.world_with_options !! "GROQ_API_KEY" |}
            (PROMPT_TEMPLATE (join (NL ++ NL) (page_content <$> docs)) question)
          = Ok (result_text res).
Proof.
  apply (retrieval_and_generation_settings_are_constants Scenario.closer
           Scenario.world_with_options Scenario.store).
  vm_compute. reflexivity.
Defined.

(** An embedding model that fails on the two disease documents of the
    scenario: no index, and the run stops without a chain. *)
Lemma index_build_scenario :
  is_Raise (get_vectorstore Scenario.world_embed_failing Scenario.documents)
  ∧ stopped (main Scenario.closer Scenario.world_embed_failing None Scenario.fresh) = true
  ∧ qa_chain (state (main Scenario.closer Scenario.world_embed_failing None
                       Scenario.fresh)) = None.
Proof.
  destruct (index_build_is_all_or_nothing Scenario.closer Scenario.world_embed_failing
              Scenario.documents Scenario.embed_failing eq_refl)
    as (Hfail & _ & Hhalt).
  assert (is_Raise (get_vectorstore Scenario.world_embed_failing Scenario.documents))
    as Hraise.
  { apply Hfail. vm_compute.
    repeat first [apply Exists_cons_hd; exact I | apply Exists_cons_tl]. }
  split; [exact Hraise |].
  apply Hhalt; [reflexivity | vm_compute; reflexivity | exact Hraise].
Defined.


(** ** Further properties of the script *)

Lemma drawn_messages_app (xs ys : list element) :
  drawn_messages (xs ++ ys) = (drawn_messages xs ++ drawn_messages ys)%list.
Proof. unfold drawn_messages. apply omap_app. Qed.

Lemma drawn_messages_show (history : list Message) :
  drawn_messages (show <$> history) = history.
Proof.
  induction history as [|[author text] history IH]; [done |].
  unfold drawn_messages in *. rewrite fmap_cons. cbn [omap list_omap]. simpl.
  by rewrite IH.
Qed.

Lemma drawn_messages_no_chat (xs : list element) :
  Forall (λ x, is_chat x = false) xs → drawn_messages xs = [].
Proof.
  induction 1 as [|x xs Hx _ IH]; [done |].
  unfold drawn_messages in *. cbn [omap list_omap]. rewrite IH.
  by destruct x.
Qed.

Section Extras.
Context {vector : Type} (closer : vector → vector → vector → bool).
Implicit Types (w : World vector) (chain : RetrievalQA vector).
Implicit Types (ss : SessionState vector).

(** X2. A sheet whose three tables have no rows loads as no documents; the
    index cannot be built from none, so the run shows the count of 0, the
    [IndexError] twice, and stops. *)
Theorem empty_sheet_stops_startup w (client : Client) (sheet : Spreadsheet)
    (embeddings : string → result vector) (chat_input : option string) ss :
  qa_chain ss = None →
  authorize w "credentials.json" SCOPES = Ok client →
  client (SPREADSHEET_ID w) = Ok sheet →
  sheet "Medicines" = Ok [] →
  sheet "Diseases" = Ok [] →
  sheet "Symptoms" = Ok [] →
  HuggingFaceEmbeddings w "sentence-transformers/all-mpnet-base-v2" = Ok embeddings →
  load_pharma_data w = Ok []
  ∧ main closer w chat_input ss =
      {| state := ss;
         screen :=
           (HEADER
            ++ [Top (Success "Loaded 0 documents from Google Sheets");
                Top (Error "Initialization failed: list index out of range");
                Top (Error "Full error: IndexError('list index out of range')")])%list;
         stopped := true |}.
Proof.
  intros Hnone Hauth Hopen Hm Hd Hs Hemb.
  assert (load_pharma_data w = Ok []) as Hload.
  { unfold load_pharma_data, connect_to_gsheets.
    rewrite Hauth; simpl. rewrite Hopen; simpl.
    rewrite Hm; simpl. rewrite Hd; simpl. by rewrite Hs. }
  split; [done |].
  assert (startup w ss = ([Top (Success "Loaded 0 documents from Google Sheets")],
                          Raise (IndexError "list index out of range"))) as Hstart.
  { unfold startup, initialize, get_vectorstore. rewrite Hnone, Hload, Hemb. reflexivity. }
  rewrite (main_stopped closer w chat_input ss (IndexError "list index out of range"))
    by (by rewrite Hstart).
  by rewrite Hstart.
Qed.

(** X3. The tables are read in order: a Medicines table with rows that lacks
    a column raises the [KeyError] of one of the Medicines columns, whatever
    the other two worksheets are, even when they cannot be fetched. *)
Theorem medicines_key_error_comes_first w (client : Client) (sheet : Spreadsheet)
    (ms : list record) :
  authorize w "credentials.json" SCOPES = Ok client →
  client (SPREADSHEET_ID w) = Ok sheet →
  sheet "Medicines" = Ok ms →
  ¬ has_columns MEDICINE_COLUMNS ms →
  ∃ c, c ∈ MEDICINE_COLUMNS ∧ load_pharma_data w = Raise (KeyError c).
Proof.
  intros Hauth Hopen Hm Hno.
  destruct (table_docs_missing medicine_doc _ ms medicine_doc_missing Hno)
    as (c & Hc & Hraise).
  exists c. split; [done |].
  unfold load_pharma_data, connect_to_gsheets.
  rewrite Hauth; simpl. rewrite Hopen; simpl. rewrite Hm; simpl.
  by rewrite Hraise.
Qed.

(** X4. Loading is all or nothing: when the Symptoms worksheet cannot be
    fetched, [load_pharma_data] raises that exception and the documents
    already made from Medicines and Diseases are lost. *)
Theorem late_failure_discards_documents w (client : Client) (sheet : Spreadsheet)
    (ms ds : list record) (e : exn) :
  authorize w "credentials.json" SCOPES = Ok client →
  client (SPREADSHEET_ID w) = Ok sheet →
  sheet "Medicines" = Ok ms →
  sheet "Diseases" = Ok ds →
  has_columns MEDICINE_COLUMNS ms →
  has_columns DISEASE_COLUMNS ds →
  sheet "Symptoms" = Raise e →
  load_pharma_data w = Raise e.
Proof.
  intros Hauth Hopen Hm Hd Cm Cd Hs.
  destruct (table_docs_rows medicine_doc _ "medicine" ms medicine_doc_typed Cm)
    as (mdocs & Em & _).
  destruct (table_docs_rows disease_doc _ "disease" ds disease_doc_typed Cd)
    as (ddocs & Ed & _).
  unfold load_pharma_data, connect_to_gsheets.
  rewrite Hauth; simpl. rewrite Hopen; simpl.
  rewrite Hm; simpl. rewrite Em; simpl.
  rewrite Hd; simpl. rewrite Ed; simpl.
  by rewrite Hs.
Qed.

(** X5. When the sheet loads and the embedding model cannot be loaded, the
    run shows how many documents were loaded (the number of rows of the
    three tables), then the exception twice, and stops. *)
Theorem model_failure_shows_document_count w (client : Client) (sheet : Spreadsheet)
    (ms ds sy : list record) (e : exn) (chat_input : option string) ss :
  qa_chain ss = None →
  authorize w "credentials.json" SCOPES = Ok client →
  client (SPREADSHEET_ID w) = Ok sheet →
  sheet "Medicines" = Ok ms →
  sheet "Diseases" = Ok ds →
  sheet "Symptoms" = Ok sy →
  has_columns MEDICINE_COLUMNS ms →
  has_columns DISEASE_COLUMNS ds →
  has_columns SYMPTOM_COLUMNS sy →
  HuggingFaceEmbeddings w "sentence-transformers/all-mpnet-base-v2" = Raise e →
  main closer w chat_input ss =
    {| state := ss;
       screen :=
         (HEADER
          ++ [Top (Success ("Loaded " ++ pretty (length ms + length ds + length sy)
                            ++ " documents from Google Sheets"));
              Top (Error ("Initialization failed: " ++ str_exn e));
              Top (Error ("Full error: " ++ repr_exn e))])%list;
       stopped := true |}.
Proof.
  intros Hnone Hauth Hopen Hm Hd Hs Cm Cd Cs Hemb.
  destruct (table_docs_rows medicine_doc _ "medicine" ms medicine_doc_typed Cm)
    as (mdocs & Em & Lm & _).
  destruct (table_docs_rows disease_doc _ "disease" ds disease_doc_typed Cd)
    as (ddocs & Ed & Ld & _).
  destruct (table_docs_rows symptom_doc _ "symptom" sy symptom_doc_typed Cs)
    as (sdocs & Es & Ls & _).
  assert (load_pharma_data w = Ok (mdocs ++ ddocs ++ sdocs)%list) as Hload.
  { unfold load_pharma_data, connect_to_gsheets.
    rewrite Hauth; simpl. rewrite Hopen; simpl.
    rewrite Hm; simpl. rewrite Em; simpl.
    rewrite Hd; simpl. rewrite Ed; simpl.
    rewrite Hs; simpl. by rewrite Es. }
  assert (startup w ss =
            ([Top (Success ("Loaded " ++ pretty (length ms + length ds + length sy)
                            ++ " documents from Google Sheets"))], Raise e)) as Hstart.
  { assert (length (mdocs ++ ddocs ++ sdocs)%list
              = length ms + length ds + length sy) as Hlen
      by (rewrite !length_app; lia).
    unfold startup, initialize, get_vectorstore. rewrite Hnone, Hload, Hemb.
    cbn [mbind result_bind]. by rewrite Hlen. }
  rewrite (main_stopped closer w chat_input ss e) by (by rewrite Hstart).
  by rewrite Hstart.
Qed.

(** X6. A failed initialisation is not remembered: the next run of the
    session initialises again, and when that succeeds it goes on to the chat
    with the new chain, on the history the session had. *)
Theorem failed_startup_is_retried (w1 w2 : World vector) (input1 input2 : option string)
    ss (e : exn) chain :
  qa_chain ss = None →
  (initialize w1).2 = Raise e →
  (initialize w2).2 = Ok chain →
  let r1 := main closer w1 input1 ss in
  let r2 := main closer w2 input2 (state r1) in
  stopped r1 = true
  ∧ r2 = chat closer w2 input2 chain (messages ss) (HEADER ++ (initialize w2).1)%list
  ∧ stopped r2 = false
  ∧ qa_chain (state r2) = Some chain.
Proof.
  intros Hnone Hfail Hok r1 r2.
  assert (startup w1 ss = initialize w1) as Hs1 by (unfold startup; by rewrite Hnone).
  assert (startup w2 ss = initialize w2) as Hs2 by (unfold startup; by rewrite Hnone).
  assert (r1 = {| state := ss;
                  screen := (HEADER ++ (startup w1 ss).1
                             ++ [Top (Error ("Initialization failed: " ++ str_exn e));
                                 Top (Error ("Full error: " ++ repr_exn e))])%list;
                  stopped := true |}) as Hr1.
  { unfold r1. apply main_stopped. by rewrite Hs1. }
  assert (r2 = chat closer w2 input2 chain (messages ss)
                 (HEADER ++ (initialize w2).1)%list) as Hr2.
  { unfold r2. rewrite Hr1. cbn [state]. rewrite <- Hs2. apply main_chat. by rewrite Hs2. }
  split; [by rewrite Hr1 |]. split; [done |].
  rewrite Hr2. destruct (chat_keeps_chain closer w2 input2 chain (messages ss)
                           (HEADER ++ (initialize w2).1)%list) as [? ?].
  done.
Qed.

(** X7. Once the session has its chain, a run never goes back to the sheet,
    the embedding model loader or the environment: two worlds that answer
    alike give the same run, however else they differ. *)
Theorem started_session_does_not_reload (w1 w2 : World vector)
    (chat_input : option string) ss chain :
  qa_chain ss = Some chain →
  groq_complete w1 = groq_complete w2 →
  set_rank w1 = set_rank w2 →
  main closer w1 chat_input ss = main closer w2 chat_input ss.
Proof.
  intros Hchain Hgroq Hrank.
  destruct w1 as [env1 auth1 hf1 client1 groq1 rank1].
  destruct w2 as [env2 auth2 hf2 client2 groq2 rank2].
  cbn [groq_complete set_rank] in Hgroq, Hrank. subst groq2 rank2.
  unfold main, startup. rewrite Hchain. reflexivity.
Qed.

(** X8. A run without a question (none, or an empty one) on a started
    session redraws the history and the input box and leaves the session as
    it is; so does any number of such runs. *)
Theorem idle_runs_change_nothing w ss chain (history : list Message)
    (worlds : list (World vector)) :
  qa_chain ss = Some chain →
  messages ss = Some history →
  main closer w None ss =
    {| state := ss;
       screen := (HEADER ++ (show <$> history) ++ [ChatInput "Ask your question..."])%list;
       stopped := false |}
  ∧ main closer w (Some EmptyString) ss = main closer w None ss
  ∧ (session closer ((λ w', (w', None)) <$> worlds) ss).1 = ss.
Proof.
  intros Hchain Hhist. destruct ss as [c m]. cbn [qa_chain messages] in *. subst c m.
  assert (∀ w' : World vector,
            main closer w' None {| qa_chain := Some chain; messages := Some history |} =
              {| state := {| qa_chain := Some chain; messages := Some history |};
                 screen := (HEADER ++ (show <$> history)
                            ++ [ChatInput "Ask your question..."])%list;
                 stopped := false |}) as Hidle.
  { intros w'. reflexivity. }
  split; [apply Hidle |]. split; [reflexivity |].
  induction worlds as [|w' worlds IH]; [done |].
  cbn [fmap list_fmap session]. rewrite Hidle. cbn [state].
  destruct (session closer _ _) as [final rs]. exact IH.
Qed.

Lemma chat_history w (chat_input : option string) chain
    (stored : option (list Message)) (drawn : list element) :
  ∃ added,
    messages (state (chat closer w chat_input chain stored drawn))
      = Some (default [GREETING] stored ++ added)%list
    ∧ (length added ≤ 2)%nat.
Proof.
  unfold chat.
  destruct chat_input as [q |]; [destruct (truthy q) |].
  - destruct (respond closer w chain q) as [response | e]; cbn [state messages].
    + exists [user q; assistant response]. by rewrite <- app_assoc.
    + exists [user q]. split; [done | simpl; lia].
  - exists []. cbn [state messages]. rewrite app_nil_r. split; [done | simpl; lia].
  - exists []. cbn [state messages]. rewrite app_nil_r. split; [done | simpl; lia].
Qed.

Lemma chat_drawn w (chat_input : option string) chain
    (stored : option (list Message)) (drawn : list element) :
  drawn_messages (screen (chat closer w chat_input chain stored drawn))
    = (drawn_messages drawn
       ++ default [] (messages (state (chat closer w chat_input chain stored drawn))))%list.
Proof.
  unfold chat.
  destruct chat_input as [q |]; [destruct (truthy q) |].
  - destruct (respond closer w chain q) as [response | e]; cbn [state messages screen];
      rewrite !drawn_messages_app, drawn_messages_show; simpl;
      by rewrite <- ?app_assoc.
  - cbn [state messages screen]. rewrite !drawn_messages_app, drawn_messages_show.
    simpl. by rewrite app_nil_r.
  - cbn [state messages screen]. rewrite !drawn_messages_app, drawn_messages_show.
    simpl. by rewrite app_nil_r.
Qed.

Lemma startup_no_chat w ss : Forall (λ x, is_chat x = false) (startup w ss).1.
Proof.
  unfold startup. destruct (qa_chain ss); [constructor | apply initialize_no_chat].
Qed.

(** X9. The history is append-only: a run that stops leaves the session as
    it was, and any other run leaves the earlier history (the greeting, for
    a new session) followed by at most two new messages. *)
Theorem history_is_append_only w (chat_input : option string) ss :
  let r := main closer w chat_input ss in
  if stopped r then state r = ss
  else ∃ added,
         messages (state r) = Some (default [GREETING] (messages ss) ++ added)%list
         ∧ (length added ≤ 2)%nat.
Proof.
  intros r. unfold r.
  destruct (startup w ss) as [shown [chain | e]] eqn:Hstart.
  - rewrite (main_chat closer w chat_input ss chain) by (by rewrite Hstart).
    destruct (chat_keeps_chain closer w chat_input chain (messages ss)
                (HEADER ++ (startup w ss).1)%list) as [_ ->].
    apply chat_history.
  - by rewrite (main_stopped closer w chat_input ss e) by (by rewrite Hstart).
Qed.

(** X10. What a run draws as chat bubbles is exactly the history it leaves
    in the session; a run that stops draws none.  An error shown in the
    assistant's bubble is no message: it is in neither. *)
Theorem drawn_bubbles_are_the_history w (chat_input : option string) ss :
  let r := main closer w chat_input ss in
  drawn_messages (screen r) =
    if stopped r then [] else default [] (messages (state r)).
Proof.
  intros r. unfold r.
  pose proof (startup_no_chat w ss) as Hshown.
  assert (drawn_messages (HEADER ++ (startup w ss).1)%list = []) as Hhead.
  { apply drawn_messages_no_chat. rewrite Forall_app. split; [| done].
    unfold HEADER. repeat constructor. }
  destruct (startup w ss).2 as [chain | e] eqn:Hstart.
  - rewrite (main_chat closer w chat_input ss chain Hstart).
    destruct (chat_keeps_chain closer w chat_input chain (messages ss)
                (HEADER ++ (startup w ss).1)%list) as [_ ->].
    by rewrite chat_drawn, Hhead.
  - rewrite (main_stopped closer w chat_input ss e Hstart).
    cbn [screen stopped]. rewrite app_assoc, drawn_messages_app, Hhead. done.
Qed.

(** X11. Over a whole session that has its chain, whatever is asked and
    whatever fails, the chain stays the same, no run stops, and the history
    keeps what it had, followed by at most two messages per run. *)
Theorem session_keeps_chain_and_history (runs : list (World vector * option string))
    ss chain (history : list Message) :
  qa_chain ss = Some chain →
  messages ss = Some history →
  qa_chain (session closer runs ss).1 = Some chain
  ∧ Forall (λ r, stopped r = false) (session closer runs ss).2
  ∧ length (session closer runs ss).2 = length runs
  ∧ ∃ added,
      messages (session closer runs ss).1 = Some (history ++ added)%list
      ∧ (length added ≤ 2 * length runs)%nat.
Proof.
  revert ss history.
  induction runs as [|[w chat_input] runs IH]; intros ss history Hchain Hhist.
  - cbn [session fst snd]. repeat split; [done | constructor |].
    exists []. rewrite app_nil_r. split; [done | simpl; lia].
  - cbn [session].
    assert (main closer w chat_input ss
            = chat closer w chat_input chain (messages ss) HEADER) as Hrun.
    { rewrite (main_chat closer w chat_input ss chain);
        rewrite (startup_session w ss chain Hchain); [by rewrite app_nil_r | done]. }
    destruct (chat_keeps_chain closer w chat_input chain (messages ss) HEADER)
      as [Hchain' Hgo].
    destruct (chat_history w chat_input chain (messages ss) HEADER)
      as (added1 & Hhist' & Hlen1).
    rewrite <- Hrun in Hchain', Hgo, Hhist'. rewrite Hhist in Hhist'. cbn [default] in Hhist'.
    specialize (IH (state (main closer w chat_input ss)) (history ++ added1)%list
                  Hchain' Hhist') as (IHc & IHs & IHl & added2 & IHh & Hlen2).
    destruct (session closer runs (state (main closer w chat_input ss)))
      as [final rs]. cbn [fst snd] in *.
    repeat split; [done | by constructor | simpl; by rewrite IHl |].
    exists (added1 ++ added2)%list. rewrite app_assoc. split; [done |].
    rewrite length_app. simpl. lia.
Qed.

(** X12. A chain made by [create_qa_chain] returns its source documents:
    every answer it produces comes from a result that holds the documents of
    the search with [k = 4], and reads as the generated text, a blank line,
    "Sources: " and the distinct types of those documents separated by
    ", ", a blank line and the disclaimer.  No answer of such a chain comes
    from the branch without sources. *)
Theorem answers_always_list_sources (w w' : World vector) (vs : VectorStore vector)
    chain (question response : string) :
  create_qa_chain w vs = Ok chain →
  respond closer w' chain question = Ok response →
  ∃ (res : ChainResult) (docs : list Document) (cited : list string),
    invoke closer w' chain question = Ok res
    ∧ source_documents res = Some docs
    ∧ similarity_search closer vs question 4 = Ok docs
    ∧ response =
        (result_text res ++ NL ++ NL ++ "Sources: " ++ String.concat ", " cited)
        ++ NL ++ NL ++ "⚠️ Disclaimer: Consult a doctor before taking any medication."
    ∧ NoDup cited
    ∧ ∀ ty, ty ∈ cited ↔
        ∃ doc, doc ∈ docs ∧ metadata doc !! "type" = Some (VStr ty).
Proof.
  intros Hchain Hresp.
  apply create_qa_chain_Ok in Hchain as ->.
  apply respond_Ok in Hresp as (res & Hres & Hresp).
  pose proof Hres as Hinv.
  apply invoke_Ok in Hinv as (docs & answer & Hsearch & _ & ->).
  cbn [retriever search_k return_source_documents source_documents result_text] in *.
  destruct Hresp as (sources & cited & Hs & Hc & ->).
  exists {| result_text := answer; source_documents := Some docs |}, docs, cited.
  cbn [source_documents result_text].
  split; [exact Hres |]. split; [done |]. split; [exact Hsearch |].
  split; [by rewrite join_concat |].
  exact (cited_types_spec w' docs sources cited Hs Hc).
Qed.

(** X13. With a chain built by the initialisation, a turn can fail only
    through a collaborator: the embedding of the question raised, or the
    generation service did.  Reading the types of the retrieved documents
    and joining them never raises there. *)
Theorem turn_fails_only_through_collaborators (w0 w : World vector) chain
    (question : string) (e : exn) :
  (initialize w0).2 = Ok chain →
  respond closer w chain question = Raise e →
  embedding_function (retriever chain) question = Raise e
  ∨ ∃ docs,
      similarity_search closer (retriever chain) question 4 = Ok docs
      ∧ groq_complete w (llm chain)
          (PROMPT_TEMPLATE (join (NL ++ NL) (page_content <$> docs)) question)
        = Raise e.
Proof.
  intros Hinit Hresp.
  pose proof (initialize_chain w0 chain Hinit) as (Hk & Hret & _ & _ & Hsrc).
  apply initialize_Ok in Hinit as (docs0 & vs & _ & _ & Hc).
  pose proof (create_qa_chain_Ok w0 vs chain Hc) as Hform.
  assert (prompt chain = PROMPT_TEMPLATE) as Hprompt by (by rewrite Hform).
  unfold respond, invoke in Hresp. rewrite Hk, Hret, Hprompt in Hresp.
  destruct (similarity_search closer (retriever chain) question 4)
    as [docs | e1] eqn:Hsearch.
  2: { left. unfold similarity_search in Hsearch.
       destruct (embedding_function (retriever chain) question); [discriminate |].
       simpl in Hsearch, Hresp. congruence. }
  right. exists docs. split; [done |].
  cbn [mbind result_bind] in Hresp.
  destruct (groq_complete w (llm chain) _) as [answer | e2];
    cbn [mbind result_bind] in Hresp; [| congruence].
  cbn [source_documents result_text] in Hresp.
  apply similarity_search_Ok in Hsearch as (_ & Hsub).
  assert (Forall sourced docs) as Hdocs.
  { rewrite Forall_forall in *. intros d Hd. apply Hsrc.
    eapply elem_of_submseteq; eauto. }
  destruct (sources_of_sourced w docs Hdocs) as (sources & cited & Hs & Hcited & _).
  rewrite Hs in Hresp. cbn [mbind result_bind] in Hresp.
  rewrite Hcited in Hresp. discriminate.
Qed.
End Extras.

(** ** The further properties, run *)

Ltac decide_true :=
  lazymatch goal with
  | |- ?P => apply (bool_decide_unpack P); vm_compute; exact I
  end.

Ltac decide_false :=
  lazymatch goal with
  | |- ¬ ?P => apply (bool_decide_eq_false_1 P); vm_compute; reflexivity
  end.

Lemma missing_column_case :
  ∃ c, load_pharma_data Scenario.world_missing_column = Raise (KeyError c).
Proof.
  apply (load_pharma_data_missing_column Scenario.world_missing_column
           (λ _, Ok Scenario.sheet_missing_column) Scenario.sheet_missing_column
           [Scenario.medicine "Dolo" "Paracetamol";
            Scenario.medicine "Brufen" "Ibuprofen";
            Scenario.medicine "Allegra" "Fexofenadine"]
           [delete "Precautions" (Scenario.disease "Flu")] []);
    try reflexivity.
  decide_false.
Defined.

Lemma empty_sheet_case :
  load_pharma_data (Cases.world_of Cases.sheet_empty) = Ok []
  ∧ main Scenario.closer (Cases.world_of Cases.sheet_empty) None Scenario.fresh =
      {| state := Scenario.fresh;
         screen :=
           (HEADER
            ++ [Top (Success "Loaded 0 documents from Google Sheets");
                Top (Error "Initialization failed: list index out of range");
                Top (Error "Full error: IndexError('list index out of range')")])%list;
         stopped := true |}.
Proof.
  apply (empty_sheet_stops_startup Scenario.closer (Cases.world_of Cases.sheet_empty)
           (λ _, Ok Cases.sheet_empty) Cases.sheet_empty Scenario.embed None
           Scenario.fresh);
    reflexivity.
Defined.

Lemma bad_medicines_case :
  ∃ c, c ∈ MEDICINE_COLUMNS
       ∧ load_pharma_data (Cases.world_of Cases.sheet_bad_medicines) = Raise (KeyError c).
Proof.
  apply (medicines_key_error_comes_first (Cases.world_of Cases.sheet_bad_medicines)
           (λ _, Ok Cases.sheet_bad_medicines) Cases.sheet_bad_medicines
           [delete "Uses" (Scenario.medicine "Dolo" "Paracetamol")]);
    try reflexivity.
  decide_false.
Defined.

Lemma no_symptoms_case :
  load_pharma_data (Cases.world_of Cases.sheet_no_symptoms)
  = Raise (Scenario.WorksheetNotFound "Symptoms").
Proof.
  apply (late_failure_discards_documents (Cases.world_of Cases.sheet_no_symptoms)
           (λ _, Ok Cases.sheet_no_symptoms) Cases.sheet_no_symptoms
           [Scenario.medicine "Dolo" "Paracetamol";
            Scenario.medicine "Brufen" "Ibuprofen";
            Scenario.medicine "Allegra" "Fexofenadine"]
           [Scenario.disease "Flu"; Scenario.disease "Cold"]);
    try reflexivity.
  - decide_true.
  - decide_true.
Defined.

Lemma no_model_case :
  main Scenario.closer Cases.world_no_model None Scenario.fresh =
    {| state := Scenario.fresh;
       screen :=
         (HEADER
          ++ [Top (Success ("Loaded " ++ pretty (3 + 2 + 0)
                            ++ " documents from Google Sheets"));
              Top (Error ("Initialization failed: " ++ str_exn Cases.ModelNotFound));
              Top (Error ("Full error: " ++ repr_exn Cases.ModelNotFound))])%list;
       stopped := true |}.
Proof.
  apply (model_failure_shows_document_count Scenario.closer Cases.world_no_model
           (λ _, Ok Scenario.sheet) Scenario.sheet
           [Scenario.medicine "Dolo" "Paracetamol";
            Scenario.medicine "Brufen" "Ibuprofen";
            Scenario.medicine "Allegra" "Fexofenadine"]
           [Scenario.disease "Flu"; Scenario.disease "Cold"] []
           Cases.ModelNotFound None Scenario.fresh);
    try reflexivity.
  - decide_true.
  - decide_true.
  - by left.
Defined.

Lemma retried_startup_case :
  let r1 := main Scenario.closer Scenario.world_missing_column None Scenario.fresh in
  let r2 := main Scenario.closer (Scenario.world (Ok "Rest."))
              (Some Scenario.question) (state r1) in
  stopped r1 = true
  ∧ r2 = chat Scenario.closer (Scenario.world (Ok "Rest.")) (Some Scenario.question)
           Scenario.chain (messages Scenario.fresh)
           (HEADER ++ (initialize (Scenario.world (Ok "Rest."))).1)%list
  ∧ stopped r2 = false
  ∧ qa_chain (state r2) = Some Scenario.chain.
Proof.
  apply (failed_startup_is_retried Scenario.closer Scenario.world_missing_column
           (Scenario.world (Ok "Rest.")) None (Some Scenario.question) Scenario.fresh
           (KeyError "Precautions") Scenario.chain).
  - reflexivity.
  - vm_compute. reflexivity.
  - vm_compute. reflexivity.
Defined.

Lemma no_reload_case :
  main Scenario.closer (Scenario.world (Ok "Rest.")) (Some Scenario.question)
    Scenario.started
  = main Scenario.closer (Cases.world_of Cases.sheet_empty) (Some Scenario.question)
      Scenario.started.
Proof.
  apply (started_session_does_not_reload Scenario.closer (Scenario.world (Ok "Rest."))
           (Cases.world_of Cases.sheet_empty) (Some Scenario.question)
           Scenario.started Scenario.chain);
    reflexivity.
Defined.

Lemma idle_runs_case :
  let w := Scenario.world (Ok "Rest.") in
  main Scenario.closer w None Scenario.started =
    {| state := Scenario.started;
       screen := (HEADER ++ (show <$> [GREETING])
                  ++ [ChatInput "Ask your question..."])%list;
       stopped := false |}
  ∧ main Scenario.closer w (Some EmptyString) Scenario.started
    = main Scenario.closer w None Scenario.started
  ∧ (session Scenario.closer ((λ w', (w', None)) <$> [w; w; w]) Scenario.started).1
    = Scenario.started.
Proof.
  apply (idle_runs_change_nothing Scenario.closer (Scenario.world (Ok "Rest."))
           Scenario.started Scenario.chain [GREETING]);
    reflexivity.
Defined.

Lemma three_turns_case :
  qa_chain (session Scenario.closer Cases.three_turns Scenario.started).1
  = Some Scenario.chain
  ∧ Forall (λ r, stopped r = false)
      (session Scenario.closer Cases.three_turns Scenario.started).2
  ∧ length (session Scenario.closer Cases.three_turns Scenario.started).2
    = length Cases.three_turns
  ∧ ∃ added,
      messages (session Scenario.closer Cases.three_turns Scenario.started).1
      = Some ([GREETING] ++ added)%list
      ∧ (length added ≤ 2 * length Cases.three_turns)%nat.
Proof.
  apply (session_keeps_chain_and_history Scenario.closer Cases.three_turns
           Scenario.started Scenario.chain [GREETING]);
    reflexivity.
Defined.

Lemma sources_line_case :
  ∃ (res : ChainResult) (docs : list Document) (cited : list string),
    invoke Scenario.closer (Scenario.world (Ok "Rest."))
      (Cases.chain_over Scenario.store) "What is Dolo?" = Ok res
    ∧ source_documents res = Some docs
    ∧ similarity_search Scenario.closer Scenario.store "What is Dolo?" 4 = Ok docs
    ∧ "Rest." ++ NL ++ NL ++ "Sources: medicine" ++ NL ++ NL ++ "⚠️ Disclaimer: Consult a doctor before taking any medication."
      = (result_text res ++ NL ++ NL ++ "Sources: " ++ String.concat ", " cited)
        ++ NL ++ NL ++ "⚠️ Disclaimer: Consult a doctor before taking any medication."
    ∧ NoDup cited
    ∧ ∀ ty, ty ∈ cited ↔
        ∃ doc, doc ∈ docs ∧ metadata doc !! "type" = Some (VStr ty).
Proof.
  apply (answers_always_list_sources Scenario.closer Scenario.world_with_options
           (Scenario.world (Ok "Rest.")) Scenario.store
           (Cases.chain_over Scenario.store) "What is Dolo?"
           ("Rest." ++ NL ++ NL ++ "Sources: medicine" ++ NL ++ NL ++ "⚠️ Disclaimer: Consult a doctor before taking any medication.")).
  - vm_compute. reflexivity.
  - vm_compute. reflexivity.
Defined.

Lemma timed_out_case :
  embedding_function (retriever Scenario.chain) Scenario.question
  = Raise Scenario.TimedOut
  ∨ ∃ docs,
      similarity_search Scenario.closer (retriever Scenario.chain) Scenario.question 4
      = Ok docs
      ∧ groq_complete (Scenario.world (Raise Scenario.TimedOut)) (llm Scenario.chain)
          (PROMPT_TEMPLATE (join (NL ++ NL) (page_content <$> docs)) Scenario.question)
        = Raise Scenario.TimedOut.
Proof.
  apply (turn_fails_only_through_collaborators Scenario.closer
           (Scenario.world (Ok "Rest.")) (Scenario.world (Raise Scenario.TimedOut))
           Scenario.chain Scenario.question Scenario.TimedOut).
  - vm_compute. reflexivity.
  - vm_compute. reflexivity.
Defined.
